(** * Steam Scout: history retention, trend derivation and watchlist selection

    A shallow embedding of the two script variants of the repository:

    - [V2]: [src/steam_scout.py] (v2.0), the Google-Sheets "History" tab,
      its 8-day trim, the 3-day trend and the watchlist loop of [main];
    - [V1]: [src/steam-scout/steam_scout.py] (v1.8.3), the CSV log,
      [compute_7d_trends] and [build_watchlist].

    [Py] holds the fragments of Python's semantics both variants rely on:
    exceptions, binary64 floats, mixed int/float comparison, [round(x, 2)],
    tuple comparison and the stable [list.sort]. *)

From Stdlib Require Import ZArith List String Ascii Bool Lia SpecFloat.
From Stdlib Require Import Sorting.Sorted Sorting.Permutation.
From stdpp Require Import base option list gmap strings pretty.

Open Scope string_scope.
Open Scope list_scope.
Open Scope Z_scope.

(* ===================================================================== *)
(** ** Python values and operations                                       *)
(* ===================================================================== *)

Module Py.

(** Exceptions the modelled code can raise. *)
Inductive exn :=
| TypeError | ValueError | IndexError | OverflowError | ZeroDivisionError.

(** The outcome of a statement sequence that may raise. *)
Inductive res (A : Type) :=
| Ok (a : A)
| Raise (e : exn).
Arguments Ok {A} a.
Arguments Raise {A} e.

Definition bind {A B} (x : res A) (k : A -> res B) : res B :=
  match x with
  | Ok a => k a
  | Raise e => Raise e
  end.

Definition is_ok {A} (x : res A) : bool :=
  match x with Ok _ => true | Raise _ => false end.

(** [try: x = e  except Exception: ...]: the handler sees no value. *)
Definition try_ {A} (x : res A) : option A :=
  match x with Ok a => Some a | Raise _ => None end.

Definition of_option {A} (e : exn) (o : option A) : res A :=
  match o with Some a => Ok a | None => Raise e end.

(** *** binary64 floats

    A Python float is an IEEE 754 binary64 value: [spec_float] with
    precision 53 and maximal exponent 1024. *)

Definition float := spec_float.
Definition prec : Z := 53.
Definition emax : Z := 1024.

Definition fsub : float -> float -> float := SFsub prec emax.
Definition fmul : float -> float -> float := SFmul prec emax.
Definition fdiv : float -> float -> float := SFdiv prec emax.

(** [float(n)] for an integer literal: the nearest binary64 value. *)
Definition float_of_Z (n : Z) : float := binary_normalize prec emax n 0 false.

Definition f0 : float := S754_zero false.
Definition f100 : float := float_of_Z 100.

Definition is_zero (x : float) : bool :=
  match x with S754_zero _ => true | _ => false end.

(** [a / b] on two ints: the exact quotient rounded once to the nearest
    float, [OverflowError] when that is out of range; a zero quotient has
    the sign of the operands. *)
Definition py_truediv (a b : Z) : res float :=
  match Z.abs a, Z.abs b with
  | _, 0 => Raise ZeroDivisionError
  | Zpos ma, Zpos mb =>
      match SFdiv prec emax (S754_finite (a <? 0) ma 0)
                            (S754_finite (b <? 0) mb 0) with
      | S754_infinity _ => Raise OverflowError
      | q => Ok q
      end
  | _, _ => Ok (S754_zero (b <? 0))
  end.

(** [int(x)] on a float: truncation towards zero; infinities and NaN raise. *)
Definition py_int_of_float (x : float) : res Z :=
  match x with
  | S754_zero _ => Ok 0
  | S754_infinity _ => Raise OverflowError
  | S754_nan => Raise ValueError
  | S754_finite s m e =>
      let n := if 0 <=? e then Zpos m * 2 ^ e else Zpos m / 2 ^ (- e) in
      Ok (if s then - n else n)
  end.

(** Rounding of the rational [n / d] ([d > 0], [n >= 0]) to the nearest
    integer, ties to the even one. *)
Definition round_half_even (n d : Z) : Z :=
  let q := n / d in
  let r := n mod d in
  match Z.compare (2 * r) d with
  | Lt => q
  | Gt => q + 1
  | Eq => if Z.even q then q else q + 1
  end.

(** [round(x, 2)] on a float: the exact value of [x] is rounded to two
    decimals (ties to even) and the decimal is read back as the nearest
    float; infinities and NaN are returned unchanged. *)
Definition py_round2 (x : float) : float :=
  match x with
  | S754_finite s m e =>
      let n := if 0 <=? e then Zpos m * 2 ^ e * 100
               else round_half_even (Zpos m * 100) (2 ^ (- e)) in
      match n with
      | Zpos p => SFdiv prec emax (S754_finite s p 0) (S754_finite false 100 0)
      | _ => S754_zero s
      end
  | _ => x
  end.

(** *** Numbers: int or float, compared exactly *)

Inductive num :=
| PyInt (n : Z)
| PyFloat (x : float).

(** [round(v, 2)]: an int is returned as it is. *)
Definition py_round2_num (v : num) : num :=
  match v with
  | PyInt n => PyInt n
  | PyFloat x => PyFloat (py_round2 x)
  end.

(** The extended dyadic value of a number that is not NaN. *)
Inductive xval :=
| NegInf
| Fin (m e : Z)          (* m * 2^e *)
| PosInf.

Definition float_val (x : float) : option xval :=
  match x with
  | S754_nan => None
  | S754_zero _ => Some (Fin 0 0)
  | S754_infinity s => Some (if s then NegInf else PosInf)
  | S754_finite s m e => Some (Fin (if s then Zneg m else Zpos m) e)
  end.

Definition num_val (v : num) : option xval :=
  match v with
  | PyInt n => Some (Fin n 0)
  | PyFloat x => float_val x
  end.

Definition xcmp (a b : xval) : comparison :=
  match a, b with
  | NegInf, NegInf => Eq
  | NegInf, _ => Lt
  | _, NegInf => Gt
  | PosInf, PosInf => Eq
  | PosInf, _ => Gt
  | _, PosInf => Lt
  | Fin m1 e1, Fin m2 e2 =>
      let e := Z.min e1 e2 in
      Z.compare (m1 * 2 ^ (e1 - e)) (m2 * 2 ^ (e2 - e))
  end.

(** Comparison of two numbers; [None] when one of them is NaN, in which
    case every ordering test and [==] are false. *)
Definition num_cmp (a b : num) : option comparison :=
  match num_val a, num_val b with
  | Some x, Some y => Some (xcmp x y)
  | _, _ => None
  end.

Definition num_ltb (a b : num) : bool :=
  match num_cmp a b with Some Lt => true | _ => false end.
Definition num_eqb (a b : num) : bool :=
  match num_cmp a b with Some Eq => true | _ => false end.
Definition num_leb (a b : num) : bool :=
  match num_cmp a b with Some (Lt | Eq) => true | _ => false end.
Definition num_gtb (a b : num) : bool := num_ltb b a.
Definition num_geb (a b : num) : bool := num_leb b a.

(** Truthiness of a number: zero of either kind is falsy, NaN is truthy. *)
Definition num_truthy (v : num) : bool :=
  match v with
  | PyInt n => negb (n =? 0)
  | PyFloat x => negb (is_zero x)
  end.

(** *** Tuples of numbers: [a < b]

    The first position where the items are not [==] decides with [<];
    without one the shorter tuple is the smaller. *)
Fixpoint tuple_ltb (a b : list num) : bool :=
  match a, b with
  | [], [] => false
  | [], _ :: _ => true
  | _ :: _, [] => false
  | x :: a', y :: b' => if num_eqb x y then tuple_ltb a' b' else num_ltb x y
  end.

(** The comparison of two tuples of values, position by position; on
    tuples without NaN, [tuple_ltb] is its [Lt] case. *)
Fixpoint lex (a b : list xval) : comparison :=
  match a, b with
  | [], [] => Eq
  | [], _ :: _ => Lt
  | _ :: _, [] => Gt
  | x :: a', y :: b' =>
      match xcmp x y with Eq => lex a' b' | c => c end
  end.

(** *** [list.sort]

    A stable insertion sort for the order [lt]: an item moves behind the
    items strictly below it only.  Whenever [<] orders the keys totally,
    Python's sort returns the one stable sorted permutation, which is
    what this function returns; with keys that [<] does not order (NaN)
    Python still returns a permutation, and only that much is used of
    the model then. *)
Section Sort.
Context {A : Type} (lt : A -> A -> bool).

Fixpoint insert_sorted (x : A) (l : list A) : list A :=
  match l with
  | [] => [x]
  | h :: t => if lt h x then h :: insert_sorted x t else x :: h :: t
  end.

Fixpoint sort (l : list A) : list A :=
  match l with
  | [] => []
  | x :: t => insert_sorted x (sort t)
  end.

End Sort.

(** [l.sort(key=..., reverse=True)]: descending, still stable. *)
Definition sort_reverse {A} (lt : A -> A -> bool) : list A -> list A :=
  sort (fun a b => lt b a).

(** [str(n)] on an int. *)
Definition str_of_Z (n : Z) : string := pretty n.

(** [header.index(name)]: position of the first equal item. *)
Fixpoint list_index (name : string) (l : list string) : option nat :=
  match l with
  | [] => None
  | h :: t => if String.eqb h name then Some O
              else option_map S (list_index name t)
  end.

End Py.

(* ===================================================================== *)
(** ** [src/steam_scout.py] (v2.0)                                        *)
(* ===================================================================== *)

Module V2.
Import Py.

(** A [datetime]: naive, or aware and then identified with its UTC
    instant in microseconds. *)
Inductive datetime :=
| Naive (us : Z)
| Aware (utc_us : Z).

(** An ordering test ([<], [>=]) or a sort against aware datetimes: a
    naive operand raises [TypeError], an aware one counts by its instant. *)
Definition aware_instant (ts : datetime) : res Z :=
  match ts with
  | Naive _ => Raise TypeError
  | Aware t => Ok t
  end.

Definition DAY_US : Z := 86400 * 1000000.

(** One line of the "History" tab as [ws.get_all_values()] returns it, and
    the tab itself, header line first. *)
Definition row := list string.
Definition sheet := list row.

Definition HISTORY_HEADER : row :=
  ["timestamp_utc"; "appid"; "game_title"; "current_players"].

(** What a dict of [today_rows] holds under a key that may be absent or
    [None], or an int or a float. *)
Inductive pyval :=
| PyNone
| PyNum (v : num).

(** The three fields [append_history_rows] reads from a row of
    [today_rows]: "Steam App ID", "Game Title" and
    "Current Players (Latest)"; [None] stands for an absent key or [None]. *)
Record today_row := {
  steam_app_id : option Z;
  game_title : option string;
  current_players_latest : pyval
}.

(** [int(ccu)]. *)
Definition py_int (v : num) : res Z :=
  match v with
  | PyInt n => Ok n
  | PyFloat x => py_int_of_float x
  end.

(** Lines 272-282: the sheet line of one row, or nothing when the loop
    [continue]s. *)
Definition history_cells (now_utc : string) (r : today_row) : option row :=
  match steam_app_id r, current_players_latest r with
  | Some appid, PyNum ccu =>
      if appid =? 0 then None                       (* not appid *)
      else match try_ (py_int ccu) with
           | None => None                           (* except Exception *)
           | Some ccu_int =>
               Some [now_utc; str_of_Z appid;
                     default "" (game_title r); str_of_Z ccu_int]
           end
  | _, _ => None                        (* not appid or ccu is None *)
  end.

Definition rows_to_append (now_utc : string) (today_rows : list today_row)
  : list row :=
  omap (history_cells now_utc) today_rows.

(** Lines 256-267: the header is written on an empty tab, and a tab whose
    first line lacks "timestamp_utc" is cleared and re-initialised. *)
Definition ensure_header (values : sheet) : sheet :=
  match values with
  | [] => [HISTORY_HEADER]
  | header :: _ =>
      match list_index "timestamp_utc" header with
      | Some _ => values
      | None => [HISTORY_HEADER]
      end
  end.

Section Parsers.
(** [datetime.fromisoformat] and [float] on a string; [None] when they
    raise. *)
Variable fromisoformat : string -> option datetime.
Variable float_of_str : string -> option float.

(** [try: ts = datetime.fromisoformat(r[ts_idx])  except Exception]. *)
Definition cell_ts (ts_idx : nat) (r : row) : option datetime :=
  match r !! ts_idx with
  | None => None                                    (* IndexError *)
  | Some s => fromisoformat s
  end.

(** Lines 300-308: the loop that fills [keep] (without the header). *)
Fixpoint trim_rows (ts_idx : nat) (cutoff : Z) (rows : list row)
  : res (list row) :=
  match rows with
  | [] => Ok []
  | r :: rs =>
      match cell_ts ts_idx r with
      | None => bind (trim_rows ts_idx cutoff rs) (fun keep => Ok (r :: keep))
      | Some ts =>
          bind (aware_instant ts) (fun t =>
          bind (trim_rows ts_idx cutoff rs) (fun keep =>
          Ok (if cutoff <=? t then r :: keep else keep)))
      end
  end.

(** Lines 287-312, the trim pass at instant [now]: the new contents of the
    tab, or the exception raised, in which case the tab is left as it was. *)
Definition trim_history (now : Z) (values : sheet) : res sheet :=
  match values with
  | [] | [_] => Ok values                           (* len(values) <= 1 *)
  | header :: rest =>
      match list_index "timestamp_utc" header with
      | None => Ok values                           (* don't try to trim *)
      | Some ts_idx =>
          bind (trim_rows ts_idx (now - 8 * DAY_US) rest) (fun kept =>
          let keep := header :: kept in
          Ok (if (length keep =? length values)%nat then values else keep))
      end
  end.

(** The tab after the trim pass, and the exception that ended it, if any. *)
Definition after_trim (now : Z) (values : sheet) : sheet * option exn :=
  match trim_history now values with
  | Ok kept => (kept, None)
  | Raise e => (values, Some e)
  end.

(** [append_history_rows]: the contents of the tab afterwards and the
    exception that ended the call, if any.  [now_utc] is the formatted
    clock reading of line 269, [now] the one of line 298. *)
Definition append_history_rows (now_utc : string) (now : Z)
    (ws : sheet) (today_rows : list today_row) : sheet * option exn :=
  match today_rows with
  | [] => (ws, None)
  | _ => after_trim now (ensure_header ws ++ rows_to_append now_utc today_rows)
  end.

(** [try: ccu = int(float(r[ccu_idx]))  except Exception]. *)
Definition cell_ccu (ccu_idx : nat) (r : row) : option Z :=
  match r !! ccu_idx with
  | None => None                                    (* IndexError *)
  | Some s =>
      match float_of_str s with
      | None => None                                (* ValueError *)
      | Some x => try_ (py_int_of_float x)
      end
  end.

(** A sample of [per_app]: the pair [(ts, ccu)]. *)
Definition sample := (Z * Z)%type.

(** Lines 345-357: the loop that fills [per_app]. *)
Fixpoint collect (ts_idx app_idx ccu_idx : nat) (cutoff : Z)
    (rows : list row) (per_app : gmap string (list sample))
  : res (gmap string (list sample)) :=
  match rows with
  | [] => Ok per_app
  | r :: rs =>
      match cell_ts ts_idx r with
      | None => collect ts_idx app_idx ccu_idx cutoff rs per_app
      | Some ts =>
          bind (aware_instant ts) (fun t =>
          if t <? cutoff then collect ts_idx app_idx ccu_idx cutoff rs per_app
          else
            bind (of_option IndexError (r !! app_idx)) (fun appid =>
            match cell_ccu ccu_idx r with
            | None => collect ts_idx app_idx ccu_idx cutoff rs per_app
            | Some ccu =>
                collect ts_idx app_idx ccu_idx cutoff rs
                  (<[appid := default [] (per_app !! appid) ++ [(t, ccu)]]>
                     per_app)
            end))
      end
  end.

End Parsers.

(** The value of [result[appid]]. *)
Record trend := {
  ccu_3d_ago : option Z;
  pct_change_3d : float
}.

Definition no_trend : trend := {| ccu_3d_ago := None; pct_change_3d := f0 |}.

(** [hist.sort(key=lambda x: x[0])]: the key is the timestamp. *)
Definition ts_lt (a b : sample) : bool := a.1 <? b.1.

Definition sort_hist (hist : list sample) : list sample := sort ts_lt hist.

(** Lines 370-373. *)
Definition pct_change (oldest_ccu latest_ccu : Z) : res float :=
  if oldest_ccu <=? 0 then Ok f0
  else bind (py_truediv (latest_ccu - oldest_ccu) oldest_ccu) (fun q =>
       Ok (fmul q f100)).

(** Lines 361-375, the body of the loop over [appids]. *)
Definition trend_of_hist (hist : option (list sample)) : res trend :=
  match hist with
  | None => Ok no_trend
  | Some h =>
      if (length h <? 2)%nat then Ok no_trend
      else
        let h' := sort_hist h in
        match head h', last h' with
        | Some (_, oldest_ccu), Some (_, latest_ccu) =>
            bind (pct_change oldest_ccu latest_ccu) (fun pct =>
            Ok {| ccu_3d_ago := Some oldest_ccu; pct_change_3d := pct |})
        | _, _ => Raise IndexError       (* not reached: [h'] is not empty *)
        end
  end.

(** Lines 359-375. *)
Fixpoint trends_loop (per_app : gmap string (list sample))
    (appids : list Z) (result : gmap Z trend) : res (gmap Z trend) :=
  match appids with
  | [] => Ok result
  | appid :: rest =>
      bind (trend_of_hist (per_app !! str_of_Z appid)) (fun t =>
      trends_loop per_app rest (<[appid := t]> result))
  end.

(** [header.index(name)], which raises [ValueError] without the column. *)
Definition header_index (name : string) (header : row) : res nat :=
  of_option ValueError (list_index name header).

(** [compute_3d_trends_from_history] at instant [now]; [ws] is [None] when
    the spreadsheet has no "History" tab. *)
Definition compute_3d_trends_from_history
    (fromisoformat : string -> option datetime)
    (float_of_str : string -> option float)
    (now : Z) (ws : option sheet) (appids : list Z) : res (gmap Z trend) :=
  match appids, ws with
  | [], _ => Ok ∅
  | _, None => Ok ∅                                (* WorksheetNotFound *)
  | _, Some ([] | [_]) => Ok ∅                     (* len(values) <= 1 *)
  | _, Some (header :: rest) =>
      bind (header_index "timestamp_utc" header) (fun ts_idx =>
      bind (header_index "appid" header) (fun app_idx =>
      bind (header_index "current_players" header) (fun ccu_idx =>
      bind (collect fromisoformat float_of_str ts_idx app_idx ccu_idx
              (now - 3 * DAY_US) rest ∅) (fun per_app =>
      trends_loop per_app appids ∅))))
  end.

(** Line 500: [trends_3d.get(appid, {...})]. *)
Definition main_t3 (trends_3d : gmap Z trend) (appid : Z) : trend :=
  default no_trend (trends_3d !! appid).

(** A row of [trend_rows]: the copied row of [today_rows] and the two
    3-day columns. *)
Record trend_row := {
  tr_today : today_row;
  players_3d_oldest : option Z;
  player_pct_change_3d : float
}.

(** Lines 499-505, for a row whose "Steam App ID" is [appid]. *)
Definition main_trend_row (trends_3d : gmap Z trend) (appid : Z)
    (row : today_row) : trend_row :=
  let t3 := main_t3 trends_3d appid in
  {| tr_today := row;
     players_3d_oldest := ccu_3d_ago t3;
     player_pct_change_3d := pct_change_3d t3 |}.

(** Lines 513-518: [ccu = tr.get(...) or 0], then [int(ccu)] or 0. *)
Definition watch_ccu (tr : trend_row) : Z :=
  match current_players_latest (tr_today tr) with
  | PyNone => 0
  | PyNum v =>
      if num_truthy v then default 0 (try_ (py_int v)) else 0
  end.

(** Lines 514-522: [pct3 = tr.get(...) or 0.0], then [float(pct3)]. *)
Definition watch_pct3 (tr : trend_row) : float :=
  if is_zero (player_pct_change_3d tr) then f0 else player_pct_change_3d tr.

(** Lines 511-525. *)
Definition main_watch_rows (watch_min_ccu : Z) (watch_min_pct : float)
    (trend_rows : list trend_row) : list trend_row :=
  List.filter (fun tr =>
            (watch_min_ccu <=? watch_ccu tr)
            && num_geb (PyFloat (watch_pct3 tr)) (PyFloat watch_min_pct))
         trend_rows.

End V2.

(* ===================================================================== *)
(** ** [src/steam-scout/steam_scout.py] (v1.8.3)                          *)
(* ===================================================================== *)

Module V1.
Import Py.

(** A row of the CSV log as [csv.DictReader] and [main] build it: every
    field is a string; "ccu_now" may be [None] (a short CSV line). *)
Record log_row := {
  date : string;
  appid : string;
  title : string;
  release_date : string;
  publisher : string;
  price : string;
  is_free : string;
  genres : string;
  ccu_now : option string
}.

(** A dict of [trends]. *)
Record trend := {
  t_appid : string;
  t_title : string;
  t_release_date : string;
  t_publisher : string;
  t_price : string;
  t_is_free : string;
  t_genres : string;
  ccu_latest : float;
  ccu_pct_change_7d : num;
  days_in_window : nat
}.

(** [per_app[r["appid"]].append(r)] on a dict that keeps its keys in the
    order of their first insertion. *)
Fixpoint group_add (r : log_row) (per_app : list (string * list log_row))
  : list (string * list log_row) :=
  match per_app with
  | [] => [(appid r, [r])]
  | (k, rows) :: rest =>
      if String.eqb k (appid r) then (k, rows ++ [r]) :: rest
      else (k, rows) :: group_add r rest
  end.

(** Lines 142-146. *)
Definition group_by_app (log_rows : list log_row)
  : list (string * list log_row) :=
  map (fun '(k, rows) =>
         (k, sort (fun a b => String.ltb (date a) (date b)) rows))
      (fold_left (fun per_app r => group_add r per_app) log_rows []).

(** Line 158. *)
Definition pct_7d (ccu_l ccu_e : float) : num :=
  if num_gtb (PyFloat ccu_e) (PyInt 0)
  then PyFloat (fmul (fdiv (fsub ccu_l ccu_e) ccu_e) f100)
  else if num_gtb (PyFloat ccu_l) (PyInt 0) then PyInt 100 else PyInt 0.

Section Parser.
(** [float] on a string; [None] when it raises. *)
Variable float_of_str : string -> option float.

(** Lines 153-155, at the key "ccu_now": [float(r.get(k) or 0)], and 0.0
    on any exception. *)
Definition fnum (r : log_row) : float :=
  match ccu_now r with
  | None => f0
  | Some s => if String.eqb s "" then f0 else default f0 (float_of_str s)
  end.

(** Lines 151-170: the dict appended for one app, nothing when its window
    is empty. *)
Definition trend_of_window (aid : string) (window : list log_row)
  : option trend :=
  match head window, last window with
  | Some earliest, Some latest =>
      let ccu_l := fnum latest in
      let ccu_e := fnum earliest in
      let pct := pct_7d ccu_l ccu_e in
      Some {| t_appid := aid;
              t_title := title latest;
              t_release_date := release_date latest;
              t_publisher := publisher latest;
              t_price := price latest;
              t_is_free := is_free latest;
              t_genres := genres latest;
              ccu_latest := py_round2 ccu_l;
              ccu_pct_change_7d := py_round2_num pct;
              days_in_window := length window |}
  | _, _ => None                                    (* if not window *)
  end.

(** Line 150. *)
Definition in_window (cutoff : string) (rows : list log_row) : list log_row :=
  List.filter (fun r => String.leb cutoff (date r)) rows.

(** The sort key of line 171. *)
Definition trend_key (t : trend) : list num :=
  [ccu_pct_change_7d t; PyFloat (ccu_latest t)].

(** [compute_7d_trends]; [cutoff] is the ISO date seven days before the
    clock reading of line 147. *)
Definition compute_7d_trends (cutoff : string) (log_rows : list log_row)
  : list trend :=
  sort_reverse (fun a b => tuple_ltb (trend_key a) (trend_key b))
    (omap (fun '(aid, rows) => trend_of_window aid (in_window cutoff rows))
          (group_by_app log_rows)).

End Parser.

(** Lines 176-178: [t.get(k, 0) or 0]. *)
Definition or_0 (v : num) : num := if num_truthy v then v else PyInt 0.

(** Lines 175-186: whether [t] is appended to [rows]. *)
Definition selected (min_ccu : Z) (min_pct : float) (require_history : bool)
    (t : trend) : bool :=
  let ccu := or_0 (PyFloat (ccu_latest t)) in
  let pct := or_0 (ccu_pct_change_7d t) in
  let days := days_in_window t in
  if num_ltb ccu (PyInt min_ccu) then false
  else if require_history
       then (2 <=? days)%nat && num_geb pct (PyFloat min_pct)
       else (days <? 2)%nat || num_geb pct (PyFloat min_pct).

(** The sort key of line 187; [True] and [False] compare as 1 and 0. *)
Definition watch_key (t : trend) : list num :=
  [PyInt (if (2 <=? days_in_window t)%nat then 1 else 0);
   ccu_pct_change_7d t; PyFloat (ccu_latest t)].

(** [build_watchlist]. *)
Definition build_watchlist (trends : list trend) (min_ccu : Z)
    (min_pct : float) (require_history : bool) : list trend :=
  sort_reverse (fun a b => tuple_ltb (watch_key a) (watch_key b))
    (List.filter (selected min_ccu min_pct require_history) trends).

End V1.

(* ===================================================================== *)
(** ** Readers for the cells the scripts write themselves                 *)
(* ===================================================================== *)

(** Instances of [datetime.fromisoformat] and [float] for the layouts the
    scripts produce: a timestamp [YYYY-MM-DDTHH:MM:SS+00:00] (the
    [isoformat(timespec="seconds")] of a UTC datetime; without the offset
    the datetime is naive) and a decimal integer ([str(n)]).  Python
    reads more layouts than these two; the instances serve to run the
    functions on cells of these layouts. *)
Module Read.
Import Py.

Definition digit (c : ascii) : option Z :=
  let n := Z.of_nat (nat_of_ascii c) in
  if (48 <=? n) && (n <=? 57) then Some (n - 48) else None.

Fixpoint digits (acc : Z) (s : string) : option Z :=
  match s with
  | EmptyString => Some acc
  | String c s' =>
      match digit c with
      | Some d => digits (10 * acc + d) s'
      | None => None
      end
  end.

(** A non-empty run of decimal digits. *)
Definition natural (s : string) : option Z :=
  match s with
  | EmptyString => None
  | _ => digits 0 s
  end.

(** An optional sign and a non-empty run of decimal digits. *)
Definition integer (s : string) : option Z :=
  match s with
  | String "-" s' => option_map Z.opp (natural s')
  | String "+" s' => natural s'
  | _ => natural s
  end.

(** [float(s)] on a decimal integer: the nearest float, an infinity beyond
    the range; the sign of "-0" is kept. *)
Definition float_of_str (s : string) : option float :=
  match integer s with
  | None => None
  | Some n =>
      Some (binary_normalize prec emax n 0
              (match s with String "-" _ => true | _ => false end))
  end.

Definition is_leap (y : Z) : bool :=
  ((y mod 4 =? 0) && negb (y mod 100 =? 0)) || (y mod 400 =? 0).

Definition days_in_month (y m : Z) : Z :=
  if m =? 2 then (if is_leap y then 29 else 28)
  else if (m =? 4) || (m =? 6) || (m =? 9) || (m =? 11) then 30 else 31.

Definition days_before_year (y : Z) : Z :=
  let y := y - 1 in y * 365 + y / 4 - y / 100 + y / 400.

Definition days_before_month (y m : Z) : Z :=
  nth (Z.to_nat m) [0; 0; 31; 59; 90; 120; 151; 181; 212; 243; 273; 304; 334] 0
  + (if (2 <? m) && is_leap y then 1 else 0).

(** The proleptic Gregorian ordinal of a date, January 1 of year 1 being
    day 1. *)
Definition ymd2ord (y m d : Z) : Z :=
  days_before_year y + days_before_month y m + d.

(** Microseconds from the start of day 0 to the given wall-clock time. *)
Definition wall_us (y m d hh mi ss : Z) : Z :=
  ((ymd2ord y m d * 24 + hh) * 60 + mi) * 60 * 1000000 + ss * 1000000.

Definition field (s : string) (pos len : nat) : option Z :=
  let f := substring pos len s in
  if (String.length f =? len)%nat then natural f else None.

Definition fromisoformat (s : string) : option V2.datetime :=
  match field s 0 4, field s 5 2, field s 8 2,
        field s 11 2, field s 14 2, field s 17 2 with
  | Some y, Some m, Some d, Some hh, Some mi, Some ss =>
      if (String.eqb (substring 4 1 s) "-")
         && (String.eqb (substring 7 1 s) "-")
         && (String.eqb (substring 10 1 s) "T")
         && (String.eqb (substring 13 1 s) ":")
         && (String.eqb (substring 16 1 s) ":")
         && (1 <=? y) && (1 <=? m) && (m <=? 12)
         && (1 <=? d) && (d <=? days_in_month y m)
         && (hh <? 24) && (mi <? 60) && (ss <? 60)
      then
        let us := wall_us y m d hh mi ss in
        if (String.length s =? 19)%nat then Some (V2.Naive us)
        else if String.eqb (substring 19 (String.length s) s) "+00:00"
             then Some (V2.Aware us)
             else None
      else None
  | _, _, _, _, _, _ => None
  end.

End Read.

(* ===================================================================== *)
(** ** The notions of the specification                                   *)
(* ===================================================================== *)

(** The specification speaks of samples, windows and orderings; these
    definitions say what they are on the data of the scripts, so that the
    functions above can be compared with them. *)
Module Spec.
Import Py.

Section History.
Variable fromisoformat : string -> option V2.datetime.
Variable float_of_str : string -> option float.

(** A line of the tab whose timestamp cannot be parsed. *)
Definition unparseable (ts_idx : nat) (r : V2.row) : Prop :=
  V2.cell_ts fromisoformat ts_idx r = None.

(** A line whose timestamp is an instant before [cutoff]. *)
Definition expired (ts_idx : nat) (cutoff : Z) (r : V2.row) : bool :=
  match V2.cell_ts fromisoformat ts_idx r with
  | Some (V2.Aware t) => t <? cutoff
  | _ => false
  end.

(** A line that is not [expired]: its timestamp is an instant from
    [cutoff] on, or cannot be parsed. *)
Definition fresh (ts_idx : nat) (cutoff : Z) (r : V2.row) : bool :=
  negb (expired ts_idx cutoff r).

(** No line carries a timestamp without an offset. *)
Definition no_naive (ts_idx : nat) (rows : list V2.row) : bool :=
  forallb (fun r => match V2.cell_ts fromisoformat ts_idx r with
                    | Some (V2.Naive _) => false
                    | _ => true
                    end) rows.

(** The sample a line contributes to the window of item [key] that starts
    at [cutoff]. *)
Definition window_sample (ts_idx app_idx ccu_idx : nat) (cutoff : Z)
    (key : string) (r : V2.row) : option V2.sample :=
  match V2.cell_ts fromisoformat ts_idx r, r !! app_idx,
        V2.cell_ccu float_of_str ccu_idx r with
  | Some (V2.Aware t), Some a, Some ccu =>
      if (cutoff <=? t) && String.eqb a key then Some (t, ccu) else None
  | _, _, _ => None
  end.

(** The specification's [read_window], before sorting: the samples of
    item [key] with a timestamp from [cutoff] on, in the order of the tab. *)
Definition window_samples (ts_idx app_idx ccu_idx : nat) (cutoff : Z)
    (key : string) (rows : list V2.row) : list V2.sample :=
  omap (window_sample ts_idx app_idx ccu_idx cutoff key) rows.

(** A line the loop of [compute_3d_trends_from_history] gets through: its
    timestamp has an offset, and it has an "appid" cell when it is in the
    window. *)
Definition row_ok (ts_idx app_idx : nat) (cutoff : Z) (r : V2.row) : bool :=
  match V2.cell_ts fromisoformat ts_idx r with
  | Some (V2.Naive _) => false
  | Some (V2.Aware t) => (t <? cutoff) || bool_decide (is_Some (r !! app_idx))
  | None => true
  end.

Definition columns (header : V2.row) : option (nat * nat * nat) :=
  match list_index "timestamp_utc" header, list_index "appid" header,
        list_index "current_players" header with
  | Some ts_idx, Some app_idx, Some ccu_idx => Some (ts_idx, app_idx, ccu_idx)
  | _, _, _ => None
  end.

(** The samples of item [appid] in the three days before [now]. *)
Definition samples_3d (now : Z) (ws : option V2.sheet) (appid : Z)
  : list V2.sample :=
  match ws with
  | Some (header :: rest) =>
      match columns header with
      | Some (ts_idx, app_idx, ccu_idx) =>
          window_samples ts_idx app_idx ccu_idx (now - 3 * V2.DAY_US)
            (str_of_Z appid) rest
      | None => []
      end
  | _ => []
  end.

(** A "History" tab on which the trend computation for [appids] runs to
    its end: the three columns are there, every line is [row_ok], and no
    requested percentage leaves the range of floats. *)
Definition history_ok (now : Z) (ws : option V2.sheet) (appids : list Z)
  : bool :=
  match ws with
  | Some (header :: ((_ :: _) as rest)) =>
      match columns header with
      | Some (ts_idx, app_idx, _) =>
          forallb (row_ok ts_idx app_idx (now - 3 * V2.DAY_US)) rest
          && forallb (fun a => is_ok (V2.trend_of_hist
                                        (Some (samples_3d now ws a)))) appids
      | None => false
      end
  | _ => true
  end.

End History.

(** The oldest sample of a window: the first, in the order of the tab, of
    those with the least timestamp. *)
Definition is_oldest (h : list V2.sample) (s : V2.sample) : Prop :=
  exists h1 h2, h = h1 ++ s :: h2
    /\ Forall (fun x => s.1 < x.1) h1 /\ Forall (fun x => s.1 <= x.1) h2.

(** The latest sample of a window: the last, in the order of the tab, of
    those with the greatest timestamp. *)
Definition is_latest (h : list V2.sample) (s : V2.sample) : Prop :=
  exists h1 h2, h = h1 ++ s :: h2
    /\ Forall (fun x => x.1 <= s.1) h1 /\ Forall (fun x => x.1 < s.1) h2.

(** The ordering of the watchlist, for rows with the three keys
    [full] (the item has a full window), [pct] and [latest]: [a] may stand
    before [b] when [a] has a full window and [b] has not, or both agree
    on that and [a] has the greater [pct], or the same [pct] and a
    [latest] that is not smaller. *)
Section WatchOrder.
Context {A : Type} (full : A -> bool) (pct latest : A -> num).

Definition watch_before (a b : A) : Prop :=
  (full a = true /\ full b = false)
  \/ (full a = full b
      /\ (num_gtb (pct a) (pct b) = true
          \/ (num_eqb (pct a) (pct b) = true
              /\ num_geb (latest a) (latest b) = true))).

(** Two rows the ordering does not separate. *)
Definition watch_tie (a b : A) : bool :=
  Bool.eqb (full a) (full b) && num_eqb (pct a) (pct b)
  && num_eqb (latest a) (latest b).

(** None of the keys of the row is NaN. *)
Definition keys_ordered (a : A) : Prop :=
  is_Some (num_val (pct a)) /\ is_Some (num_val (latest a)).

End WatchOrder.

(** The three keys on a dict of v1.8.3 ... *)
Definition full_7d (t : V1.trend) : bool := (2 <=? V1.days_in_window t)%nat.
Definition pct_of_7d (t : V1.trend) : num := V1.ccu_pct_change_7d t.
Definition latest_7d (t : V1.trend) : num := PyFloat (V1.ccu_latest t).

(** ... and on a row of [trend_rows] of v2.0, where a full window shows
    as an oldest value that is not [None]. *)
Definition full_3d (tr : V2.trend_row) : bool :=
  bool_decide (is_Some (V2.players_3d_oldest tr)).
Definition pct_of_3d (tr : V2.trend_row) : num :=
  PyFloat (V2.player_pct_change_3d tr).
Definition latest_3d (tr : V2.trend_row) : num := PyInt (V2.watch_ccu tr).

End Spec.

(* ===================================================================== *)
(** ** The scenarios of the specification, as data                        *)
(* ===================================================================== *)

Module Examples.
Import Py.

(** The run of 2024-03-11 12:00 UTC. *)
Definition now : Z := Read.wall_us 2024 3 11 12 0 0.
Definition now_utc : string := "2024-03-11T12:00:00+00:00".

(** A "History" tab: item 10 has 100 three days ago and 150 now
    (scenario A), item 11 a single sample of 80 (scenario B), item 12
    starts from 0 (scenario C), item 13 goes from 3 to 4. *)
Definition history_tab : V2.sheet :=
  [ V2.HISTORY_HEADER;
    ["2024-03-08T12:00:00+00:00"; "10"; "X"; "100"];
    ["2024-03-10T12:00:00+00:00"; "12"; "Z"; "0"];
    ["2024-03-10T12:00:00+00:00"; "13"; "W"; "3"];
    ["2024-03-11T12:00:00+00:00"; "10"; "X"; "150"];
    ["2024-03-11T12:00:00+00:00"; "11"; "Y"; "80"];
    ["2024-03-11T12:00:00+00:00"; "12"; "Z"; "500"];
    ["2024-03-11T12:00:00+00:00"; "13"; "W"; "4"] ].

(** Scenario D: a sample ten days old and a sample one day old. *)
Definition sample_10d : V2.row :=
  ["2024-03-01T12:00:00+00:00"; "10"; "X"; "100"].
Definition sample_1d : V2.row :=
  ["2024-03-10T12:00:00+00:00"; "10"; "X"; "120"].
Definition tab_D : V2.sheet := [V2.HISTORY_HEADER; sample_10d; sample_1d].

(** A line whose timestamp is no timestamp, on a tab with an old sample. *)
Definition undated : V2.row := ["last week"; "10"; "X"; "90"].
Definition tab_undated : V2.sheet := [V2.HISTORY_HEADER; sample_10d; undated].

(** A batch with a negative player count, and one with a sample that has
    no id between two that have one. *)
Definition negative_sample : V2.today_row :=
  {| V2.steam_app_id := Some 10; V2.game_title := Some "X";
     V2.current_players_latest := V2.PyNum (PyInt (-5)) |}.
Definition anonymous_sample : V2.today_row :=
  {| V2.steam_app_id := None; V2.game_title := Some "?";
     V2.current_players_latest := V2.PyNum (PyInt 7) |}.
Definition plain_sample : V2.today_row :=
  {| V2.steam_app_id := Some 11; V2.game_title := Some "Y";
     V2.current_players_latest := V2.PyNum (PyInt 80) |}.

(** The CSV log of v1.8.3 with the same histories, and the ISO date seven
    days before the run. *)
Definition log_row_of (d aid ccu : string) : V1.log_row :=
  {| V1.date := d; V1.appid := aid; V1.title := "";
     V1.release_date := ""; V1.publisher := ""; V1.price := "";
     V1.is_free := ""; V1.genres := ""; V1.ccu_now := Some ccu |}.

Definition cutoff_7d : string := "2024-03-04".

Definition log : list V1.log_row :=
  [ log_row_of "2024-03-08" "10" "100";
    log_row_of "2024-03-10" "12" "0";
    log_row_of "2024-03-10" "13" "3";
    log_row_of "2024-03-11" "10" "150";
    log_row_of "2024-03-11" "11" "80";
    log_row_of "2024-03-11" "12" "500";
    log_row_of "2024-03-11" "13" "4" ].

Definition f25 : float := float_of_Z 25.

(** The dicts [compute_7d_trends] builds from that log for the items 11
    (one sample of 80), 12 (from 0 to 500) and 13 (from 3 to 4). *)
Definition trend_of (aid : string) (ccu : float) (pct : num) (days : nat)
  : V1.trend :=
  {| V1.t_appid := aid; V1.t_title := ""; V1.t_release_date := "";
     V1.t_publisher := ""; V1.t_price := ""; V1.t_is_free := "";
     V1.t_genres := ""; V1.ccu_latest := ccu;
     V1.ccu_pct_change_7d := pct; V1.days_in_window := days |}.

Definition trend_11 : V1.trend := trend_of "11" (float_of_Z 80) (PyFloat f0) 1.
Definition trend_12 : V1.trend := trend_of "12" (float_of_Z 500) (PyInt 100) 2.
Definition trend_13 : V1.trend :=
  trend_of "13" (float_of_Z 4)
    (PyFloat (S754_finite false 4690780486883082 (-47))) 2.   (* 33.33 *)

(** The rows of [today_rows] of items 13 and 10 in the run of v2.0. *)
Definition today_13 : V2.today_row :=
  {| V2.steam_app_id := Some 13; V2.game_title := Some "W";
     V2.current_players_latest := V2.PyNum (PyInt 4) |}.
Definition today_10 : V2.today_row :=
  {| V2.steam_app_id := Some 10; V2.game_title := Some "X";
     V2.current_players_latest := V2.PyNum (PyInt 150) |}.

End Examples.

(* ===================================================================== *)
(** ** Facts about the Python fragment                                    *)
(* ===================================================================== *)

Module PyFacts.
Import Py.

(** *** The order of values *)

Lemma xcmp_fin_common e0 m1 e1 m2 e2 :
  e0 <= e1 -> e0 <= e2 ->
  xcmp (Fin m1 e1) (Fin m2 e2) = (m1 * 2 ^ (e1 - e0) ?= m2 * 2 ^ (e2 - e0)).
Proof.
  intros H1 H2. cbn [xcmp].
  set (e := Z.min e1 e2).
  assert (He : e0 <= e /\ e <= e1 /\ e <= e2) by (unfold e; lia).
  replace (e1 - e0) with ((e1 - e) + (e - e0)) by lia.
  replace (e2 - e0) with ((e2 - e) + (e - e0)) by lia.
  rewrite !Z.pow_add_r by lia.
  rewrite !Z.mul_assoc.
  apply Zmult_compare_compat_r.
  apply Z.lt_gt, Z.pow_pos_nonneg; lia.
Qed.

Lemma xcmp_antisym a b : xcmp b a = CompOpp (xcmp a b).
Proof.
  destruct a, b; try reflexivity.
  cbn [xcmp]. rewrite Z.min_comm. apply Z.compare_antisym.
Qed.

Lemma xcmp_refl a : xcmp a a = Eq.
Proof. destruct a; try reflexivity. cbn [xcmp]. apply Z.compare_refl. Qed.

Lemma xcmp_trans a b c o : xcmp a b = o -> xcmp b c = o -> xcmp a c = o.
Proof.
  destruct a as [|m1 e1|], b as [|m2 e2|], c as [|m3 e3|]; cbn [xcmp];
    try congruence.
  set (e0 := Z.min e1 (Z.min e2 e3)).
  change (xcmp (Fin m1 e1) (Fin m2 e2) = o ->
          xcmp (Fin m2 e2) (Fin m3 e3) = o ->
          xcmp (Fin m1 e1) (Fin m3 e3) = o).
  rewrite !(xcmp_fin_common e0) by (unfold e0; lia).
  generalize (m1 * 2 ^ (e1 - e0)) (m2 * 2 ^ (e2 - e0)) (m3 * 2 ^ (e3 - e0)).
  clear. intros x y z Hxy Hyz. destruct o.
  - apply Z.compare_eq_iff in Hxy, Hyz. apply Z.compare_eq_iff. lia.
  - pose proof (proj1 (Z.compare_lt_iff _ _) Hxy).
    pose proof (proj1 (Z.compare_lt_iff _ _) Hyz).
    apply Z.compare_lt_iff. lia.
  - pose proof (proj1 (Z.compare_gt_iff _ _) Hxy).
    pose proof (proj1 (Z.compare_gt_iff _ _) Hyz).
    apply Z.compare_gt_iff. lia.
Qed.

Lemma xcmp_eq_l a b c : xcmp a b = Eq -> xcmp a c = xcmp b c.
Proof.
  destruct a as [|m1 e1|], b as [|m2 e2|], c as [|m3 e3|]; cbn [xcmp];
    try congruence.
  set (e0 := Z.min e1 (Z.min e2 e3)).
  change (xcmp (Fin m1 e1) (Fin m2 e2) = Eq ->
          xcmp (Fin m1 e1) (Fin m3 e3) = xcmp (Fin m2 e2) (Fin m3 e3)).
  rewrite !(xcmp_fin_common e0) by (unfold e0; lia).
  intros H%Z.compare_eq_iff. now rewrite H.
Qed.

(** *** Tuples *)

Lemma tuple_ltb_lex a : forall b va vb,
  mapM num_val a = Some va -> mapM num_val b = Some vb ->
  tuple_ltb a b = match lex va vb with Lt => true | _ => false end.
Proof.
  induction a as [|x a IH]; intros [|y b] va vb Ha Hb;
    simplify_option_eq; try reflexivity.
  unfold num_eqb, num_ltb, num_cmp. rewrite Heqo, Heqo1.
  cbn. destruct (xcmp _ _); auto.
Qed.

Lemma lex_antisym a : forall b, lex b a = CompOpp (lex a b).
Proof.
  induction a as [|x a IH]; intros [|y b]; cbn; try reflexivity.
  rewrite (xcmp_antisym x y). destruct (xcmp x y); cbn; auto.
Qed.

Lemma lex_eq_l a : forall b c, lex a b = Eq -> lex a c = lex b c.
Proof.
  induction a as [|x a IH]; intros [|y b] [|z c]; cbn; try congruence.
  destruct (xcmp x y) eqn:Hxy; try discriminate.
  rewrite (xcmp_eq_l _ _ _ Hxy). intros H. destruct (xcmp y z); auto.
Qed.

Lemma lex_trans a : forall b c o, lex a b = o -> lex b c = o -> lex a c = o.
Proof.
  induction a as [|x a IH]; intros [|y b] [|z c] o; cbn; try congruence.
  destruct (xcmp x y) eqn:Hxy.
  - rewrite (xcmp_eq_l _ _ _ Hxy). destruct (xcmp y z); eauto.
  - intros <-. destruct (xcmp y z) eqn:Hyz; try discriminate.
    + rewrite xcmp_antisym in Hyz.
      destruct (xcmp z y) eqn:Hzy; try discriminate.
      now rewrite xcmp_antisym, (xcmp_eq_l _ _ _ Hzy), <- xcmp_antisym, Hxy.
    + now rewrite (xcmp_trans _ _ _ _ Hxy Hyz).
  - intros <-. destruct (xcmp y z) eqn:Hyz; try discriminate.
    + rewrite xcmp_antisym in Hyz.
      destruct (xcmp z y) eqn:Hzy; try discriminate.
      now rewrite xcmp_antisym, (xcmp_eq_l _ _ _ Hzy), <- xcmp_antisym, Hxy.
    + now rewrite (xcmp_trans _ _ _ _ Hxy Hyz).
Qed.

(** [<=] on tuples is transitive. *)
Lemma lex_le_trans a b c : lex a b <> Gt -> lex b c <> Gt -> lex a c <> Gt.
Proof.
  intros Hab Hbc Hac.
  destruct (lex a b) eqn:E1; try congruence.
  - rewrite (lex_eq_l _ _ _ E1) in Hac. congruence.
  - destruct (lex b c) eqn:E2; try congruence.
    + rewrite lex_antisym in E2. destruct (lex c b) eqn:E3; try discriminate.
      rewrite lex_antisym, (lex_eq_l _ _ _ E3), <- lex_antisym in Hac.
      congruence.
    + rewrite (lex_trans _ _ _ _ E1 E2) in Hac. discriminate.
Qed.

(** *** The insertion sort *)

Section SortFacts.
Context {A : Type} (lt : A -> A -> bool).

Lemma insert_sorted_perm x l : Permutation (insert_sorted lt x l) (x :: l).
Proof.
  induction l as [|h t IH]; cbn; [reflexivity|].
  destruct (lt h x); [|reflexivity].
  rewrite IH. apply perm_swap.
Qed.

Lemma sort_perm l : Permutation (sort lt l) l.
Proof.
  induction l as [|x t IH]; cbn; [reflexivity|].
  rewrite insert_sorted_perm. now constructor.
Qed.

Lemma insert_sorted_filter (p : A -> bool) x l :
  (forall a b, p a = true -> p b = true -> lt a b = false) ->
  List.filter p (insert_sorted lt x l) = List.filter p (x :: l).
Proof.
  intros Hp. induction l as [|h t IH]; [reflexivity|].
  cbn [insert_sorted]. destruct (lt h x) eqn:Hlt; [|reflexivity].
  cbn [List.filter] in *. rewrite IH.
  destruct (p h) eqn:Hh, (p x) eqn:Hx; try reflexivity.
  rewrite (Hp h x Hh Hx) in Hlt. discriminate.
Qed.

(** Stability: items no one of which is below another keep their order. *)
Lemma sort_stable (p : A -> bool) l :
  (forall a b, p a = true -> p b = true -> lt a b = false) ->
  List.filter p (sort lt l) = List.filter p l.
Proof.
  intros Hp. induction l as [|x t IH]; [reflexivity|].
  cbn [sort]. rewrite insert_sorted_filter by assumption.
  cbn [List.filter]. now rewrite IH.
Qed.

Variable P : A -> Prop.
Hypothesis lt_asym : forall a b, P a -> P b -> lt a b = true -> lt b a = false.
Hypothesis le_trans : forall a b c, P a -> P b -> P c ->
  lt b a = false -> lt c b = false -> lt c a = false.

Lemma insert_sorted_sorted x l :
  P x -> Forall P l ->
  StronglySorted (fun a b => lt b a = false) l ->
  StronglySorted (fun a b => lt b a = false) (insert_sorted lt x l).
Proof.
  intros Hx HP Hs. induction Hs as [|h t Hs IH Hh]; cbn.
  - repeat constructor.
  - inversion HP as [|? ? Ph Pt]; subst.
    destruct (lt h x) eqn:Hlt.
    + constructor; [now apply IH|].
      apply (Permutation_Forall (Permutation_sym (insert_sorted_perm x t))).
      constructor; [now apply lt_asym|assumption].
    + constructor; [now constructor|].
      constructor; [assumption|].
      rewrite Forall_forall in *. intros y Hy.
      apply (le_trans x h y); auto.
Qed.

Lemma sort_sorted l :
  Forall P l -> StronglySorted (fun a b => lt b a = false) (sort lt l).
Proof.
  induction 1 as [|x t Hx Ht IH]; cbn; [constructor|].
  apply insert_sorted_sorted; auto.
  apply (Permutation_Forall (Permutation_sym (sort_perm t))). assumption.
Qed.

End SortFacts.

End PyFacts.

(* ===================================================================== *)
(** ** The history tab of v2.0: ingestion and trim                        *)
(* ===================================================================== *)

Module V2Facts.
Import Py V2 Spec PyFacts.

Lemma filter_length_eq {A} (p : A -> bool) l :
  length (List.filter p l) = length l -> List.filter p l = l.
Proof.
  induction l as [|x t IH]; [reflexivity|]. cbn.
  pose proof (filter_length_le p t) as Hle.
  destruct (p x); cbn; intros H; [f_equal; apply IH; lia | lia].
Qed.

Lemma filter_idem {A} (p : A -> bool) l :
  List.filter p (List.filter p l) = List.filter p l.
Proof.
  induction l as [|x t IH]; [reflexivity|]. cbn.
  destruct (p x) eqn:Hx; cbn; [rewrite Hx; f_equal|]; exact IH.
Qed.

Section Trim.
Variable fromisoformat : string -> option datetime.

Lemma trim_rows_ok ts_idx cutoff rows :
  no_naive fromisoformat ts_idx rows = true ->
  trim_rows fromisoformat ts_idx cutoff rows
  = Ok (List.filter (fresh fromisoformat ts_idx cutoff) rows).
Proof.
  induction rows as [|r rs IH]; [reflexivity|].
  cbn. unfold fresh, expired.
  destruct (cell_ts fromisoformat ts_idx r) as [[us|t]|]; cbn;
    try discriminate; intros H; rewrite (IH H); cbn.
  - rewrite (Z.leb_antisym t cutoff). now destruct (t <? cutoff).
  - reflexivity.
Qed.

Lemma trim_rows_raise ts_idx cutoff rows :
  no_naive fromisoformat ts_idx rows = false ->
  trim_rows fromisoformat ts_idx cutoff rows = Raise TypeError.
Proof.
  induction rows as [|r rs IH]; [discriminate|].
  cbn. destruct (cell_ts fromisoformat ts_idx r) as [[us|t]|]; cbn;
    try reflexivity; intros H; now rewrite (IH H).
Qed.

Lemma no_naive_filter ts_idx p rows :
  no_naive fromisoformat ts_idx rows = true ->
  no_naive fromisoformat ts_idx (List.filter p rows) = true.
Proof.
  unfold no_naive. rewrite !forallb_forall.
  intros H r Hr. apply H. now apply filter_In in Hr.
Qed.

(** Whatever the first pass returns, a second pass returns it again. *)
Lemma trim_rows_idem ts_idx cutoff rows kept :
  trim_rows fromisoformat ts_idx cutoff rows = Ok kept ->
  trim_rows fromisoformat ts_idx cutoff kept = Ok kept.
Proof.
  destruct (no_naive fromisoformat ts_idx rows) eqn:Hn.
  - rewrite (trim_rows_ok _ _ _ Hn). intros [= <-].
    rewrite trim_rows_ok by now apply no_naive_filter.
    now rewrite filter_idem.
  - now rewrite (trim_rows_raise _ _ _ Hn).
Qed.

Lemma trim_history_header now header rest ts_idx :
  list_index "timestamp_utc" header = Some ts_idx ->
  no_naive fromisoformat ts_idx rest = true ->
  trim_history fromisoformat now (header :: rest)
  = Ok (header
        :: List.filter (fresh fromisoformat ts_idx (now - 8 * DAY_US)) rest).
Proof.
  intros Hidx Hn. unfold trim_history.
  destruct rest as [|r rs]; [reflexivity|].
  rewrite Hidx, (trim_rows_ok _ _ _ Hn). cbn [bind]. cbv zeta.
  destruct (_ =? _)%nat eqn:Hlen; [|reflexivity].
  apply Nat.eqb_eq in Hlen.
  change (S (length (List.filter
                       (fresh fromisoformat ts_idx (now - 8 * DAY_US))
                       (r :: rs)))
          = S (length (r :: rs))) in Hlen.
  apply Nat.succ_inj in Hlen. now rewrite (filter_length_eq _ _ Hlen).
Qed.

Lemma trim_history_idem now values s :
  trim_history fromisoformat now values = Ok s ->
  trim_history fromisoformat now s = Ok s.
Proof.
  unfold trim_history at 1.
  destruct values as [|header [|r rs]]; try (now intros [= <-]).
  destruct (list_index "timestamp_utc" header) as [ts_idx|] eqn:Hidx.
  - destruct (trim_rows fromisoformat ts_idx (now - 8 * DAY_US) (r :: rs))
      as [kept|e] eqn:Hk; [|discriminate].
    cbn [bind]. intros [= <-].
    assert (Hs : trim_history fromisoformat now (header :: kept)
                 = Ok (header :: kept)).
    { unfold trim_history. destruct kept as [|k ks]; [reflexivity|].
      rewrite Hidx, (trim_rows_idem _ _ _ _ Hk). cbn [bind].
      now rewrite Nat.eqb_refl. }
    destruct (_ =? _)%nat eqn:E; [|exact Hs].
    unfold trim_history. rewrite Hidx, Hk. cbn [bind]. cbv zeta.
    cbn [length Nat.eqb] in *. now rewrite E.
  - intros [= <-]. unfold trim_history. now rewrite Hidx.
Qed.

Lemma trim_history_raise now values e :
  trim_history fromisoformat now values = Raise e -> e = TypeError.
Proof.
  unfold trim_history.
  destruct values as [|header [|r rs]]; try discriminate.
  destruct (list_index "timestamp_utc" header) as [ts_idx|]; [|discriminate].
  destruct (no_naive fromisoformat ts_idx (r :: rs)) eqn:Hn.
  - now rewrite (trim_rows_ok _ _ _ Hn).
  - rewrite (trim_rows_raise _ _ _ Hn). now intros [= <-].
Qed.

Lemma trim_history_naive now header rest ts_idx :
  list_index "timestamp_utc" header = Some ts_idx ->
  no_naive fromisoformat ts_idx rest = false ->
  trim_history fromisoformat now (header :: rest) = Raise TypeError.
Proof.
  intros Hidx Hn. unfold trim_history.
  destruct rest as [|r rs]; [discriminate|].
  now rewrite Hidx, (trim_rows_raise _ _ _ Hn).
Qed.

(** C6.  On a "History" tab whose header has the "timestamp_utc" column
    and whose lines carry no offset-less timestamp, the trim pass at
    [now] deletes exactly the lines whose timestamp is an instant before
    the cutoff [now - 8 days]: what is left is the header and, in their
    order and unchanged, the other lines; a line stamped [t] is among
    them if and only if it was in the tab and [cutoff <= t]. *)
Theorem trim_deletes_exactly_expired now header rest ts_idx :
  list_index "timestamp_utc" header = Some ts_idx ->
  no_naive fromisoformat ts_idx rest = true ->
  exists kept,
    trim_history fromisoformat now (header :: rest) = Ok (header :: kept)
    /\ kept = List.filter (fresh fromisoformat ts_idx (now - 8 * DAY_US)) rest
    /\ forall r t, cell_ts fromisoformat ts_idx r = Some (Aware t) ->
         (In r kept <-> In r rest /\ now - 8 * DAY_US <= t).
Proof.
  intros Hidx Hn.
  exists (List.filter (fresh fromisoformat ts_idx (now - 8 * DAY_US)) rest).
  split; [now apply trim_history_header|]. split; [reflexivity|].
  intros r t Hr. rewrite filter_In. unfold fresh, expired. rewrite Hr.
  rewrite negb_true_iff, Z.ltb_ge. reflexivity.
Qed.

(** C7.  The trim pass is idempotent: run on its own result, with the
    same clock reading, it returns that result again (and when the first
    pass raises, the tab is as before and so is the outcome); the tab
    after two passes is the tab after one.  On an empty tab, and on a tab
    with the header only, the pass returns without touching the tab. *)
Theorem trim_idempotent now values :
  bind (trim_history fromisoformat now values)
       (trim_history fromisoformat now)
  = trim_history fromisoformat now values
  /\ (after_trim fromisoformat now
        (after_trim fromisoformat now values).1).1
     = (after_trim fromisoformat now values).1
  /\ after_trim fromisoformat now [] = ([], None)
  /\ forall header, after_trim fromisoformat now [header] = ([header], None).
Proof.
  assert (H1 : bind (trim_history fromisoformat now values)
                 (trim_history fromisoformat now)
               = trim_history fromisoformat now values).
  { destruct (trim_history fromisoformat now values) as [s|e] eqn:H;
      [|reflexivity]. cbn. now apply (trim_history_idem now values). }
  split; [exact H1|]. split; [|split; [reflexivity|intros; reflexivity]].
  unfold after_trim.
  destruct (trim_history fromisoformat now values) as [s|e] eqn:H; cbn.
  - cbn in H1. now rewrite H1.
  - now rewrite H.
Qed.

(** C10.  A line of the tab whose timestamp cell cannot be parsed is
    still a line of the tab after the trim pass, whatever [now] is and
    whether the pass runs to its end or raises. *)
Theorem trim_keeps_unparseable now header rest ts_idx r :
  list_index "timestamp_utc" header = Some ts_idx ->
  In r rest ->
  unparseable fromisoformat ts_idx r ->
  exists kept,
    (after_trim fromisoformat now (header :: rest)).1 = header :: kept
    /\ In r kept.
Proof.
  intros Hidx Hr Hu. unfold after_trim.
  destruct (no_naive fromisoformat ts_idx rest) eqn:Hn.
  - rewrite (trim_history_header now header rest ts_idx Hidx Hn). cbn.
    eexists; split; [reflexivity|].
    apply filter_In. split; [assumption|].
    unfold fresh, expired. unfold unparseable in Hu. now rewrite Hu.
  - rewrite (trim_history_naive now header rest ts_idx Hidx Hn). cbn. eauto.
Qed.

(** C5 (amended).  [append_history_rows] validates nothing by raising: a
    sample whose id is missing ([None] or 0) or whose metric is [None]
    is skipped and the batch is processed as if it were not there; a
    sample with an id and an integer metric gets its line whatever the
    sign of the metric; and the only exception that can end the call is
    the [TypeError] of the trim pass. *)
Theorem append_skips_or_stores now_utc (b1 b2 : list today_row) r :
  (steam_app_id r = None \/ steam_app_id r = Some 0
   \/ current_players_latest r = PyNone ->
   rows_to_append now_utc (b1 ++ r :: b2) = rows_to_append now_utc (b1 ++ b2))
  /\ (forall appid n,
        steam_app_id r = Some appid -> appid <> 0 ->
        current_players_latest r = PyNum (PyInt n) ->
        rows_to_append now_utc (b1 ++ r :: b2)
        = rows_to_append now_utc b1
          ++ [now_utc; str_of_Z appid; default "" (game_title r); str_of_Z n]
          :: rows_to_append now_utc b2)
  /\ (forall now ws batch,
        (append_history_rows fromisoformat now_utc now ws batch).2 = None
        \/ (append_history_rows fromisoformat now_utc now ws batch).2
           = Some TypeError).
Proof.
  unfold rows_to_append. repeat split.
  - intros H. rewrite !omap_app. f_equal. cbn.
    enough (history_cells now_utc r = None) as -> by reflexivity.
    unfold history_cells. destruct H as [-> | [-> | ->]].
    + reflexivity.
    + now destruct (current_players_latest r).
    + now destruct (steam_app_id r).
  - intros appid n Hid Hne Hccu. rewrite omap_app. f_equal. cbn.
    unfold history_cells. rewrite Hid, Hccu.
    destruct (Z.eqb_spec appid 0); [contradiction|reflexivity].
  - intros now ws [|b batch]; [now left|].
    unfold append_history_rows, after_trim.
    destruct (trim_history _ _ _) as [s|e] eqn:H; [now left|right].
    cbn. f_equal. now apply (trim_history_raise _ _ _ H).
Qed.

Lemma ensure_header_spec ws :
  exists header rest ts_idx,
    ensure_header ws = header :: rest
    /\ list_index "timestamp_utc" header = Some ts_idx
    /\ (rest = [] \/ ws = header :: rest).
Proof.
  unfold ensure_header. destruct ws as [|header rest].
  - exists HISTORY_HEADER, [], 0%nat. auto.
  - destruct (list_index "timestamp_utc" header) as [ts_idx|] eqn:Hidx.
    + exists header, rest, ts_idx. auto.
    + exists HISTORY_HEADER, [], 0%nat. auto.
Qed.

(** Inside [append_history_rows] the trim pass always finds its column:
    with a batch that is not empty and no offset-less timestamp on the
    tab, the call ends without an exception and leaves the header, the
    lines that were there and the lines of the batch, less the expired
    ones. *)
Lemma append_history_rows_spec now_utc now ws r batch :
  exists header rest ts_idx,
    ensure_header ws = header :: rest
    /\ list_index "timestamp_utc" header = Some ts_idx
    /\ (no_naive fromisoformat ts_idx
          (rest ++ rows_to_append now_utc (r :: batch)) = true ->
        append_history_rows fromisoformat now_utc now ws (r :: batch)
        = (header :: List.filter (fresh fromisoformat ts_idx (now - 8 * DAY_US))
                       (rest ++ rows_to_append now_utc (r :: batch)),
           None)).
Proof.
  destruct (ensure_header_spec ws) as (header & rest & ts_idx & He & Hidx & _).
  exists header, rest, ts_idx. split; [exact He|]. split; [exact Hidx|].
  intros Hn. unfold append_history_rows, after_trim. rewrite He.
  pose proof (trim_history_header now header _ ts_idx Hidx Hn) as Ht.
  rewrite app_comm_cons in Ht. now rewrite Ht.
Qed.

End Trim.

(* ===================================================================== *)
(** ** The 3-day trend of v2.0                                            *)
(* ===================================================================== *)

(** *** The sorted window *)

Lemma head_insert_sorted (x : sample) l :
  head (insert_sorted ts_lt x l)
  = Some (match head l with
          | Some h => if h.1 <? x.1 then h else x
          | None => x
          end).
Proof.
  destruct l as [|h t]; cbn; [reflexivity|]. unfold ts_lt.
  now destruct (h.1 <? x.1).
Qed.

Lemma sort_hist_sorted h :
  StronglySorted (fun a b : sample => (b.1 <? a.1) = false) (sort_hist h).
Proof.
  assert (H : StronglySorted (fun a b => ts_lt b a = false) (sort_hist h)).
  { apply (sort_sorted _ (fun _ => True)).
    - intros a b _ _. unfold ts_lt. rewrite Z.ltb_lt, Z.ltb_ge. lia.
    - intros a b c _ _ _. unfold ts_lt. rewrite !Z.ltb_ge. lia.
    - now apply List.Forall_forall. }
  exact H.
Qed.

Lemma last_insert_sorted (x : sample) l :
  StronglySorted (fun a b : sample => (b.1 <? a.1) = false) l ->
  last (insert_sorted ts_lt x l)
  = Some (match last l with
          | Some m => if m.1 <? x.1 then x else m
          | None => x
          end).
Proof.
  induction 1 as [|h t Hs IH Hh]; [reflexivity|].
  cbn [insert_sorted]. unfold ts_lt at 1. destruct (h.1 <? x.1) eqn:E.
  - rewrite !last_cons, IH. destruct (last t); cbn; [reflexivity|].
    now rewrite E.
  - rewrite last_cons_cons. destruct (last (h :: t)) as [m|] eqn:Hm;
      [|rewrite last_cons in Hm; destruct (last t); discriminate].
    pose proof Hm as Hin. apply last_Some_elem_of, list_elem_of_In in Hin.
    rename Hm into Hlast, Hin into Hm.
    assert (x.1 <= m.1) as Hle.
    { apply Z.ltb_ge in E. destruct Hm as [<-|Hm]; [assumption|].
      rewrite List.Forall_forall in Hh. specialize (Hh m Hm).
      apply Z.ltb_ge in Hh. lia. }
    apply Z.ltb_ge in Hle. now rewrite Hle.
Qed.

(** The first item of the sorted window is the oldest sample. *)
Lemma head_sort_hist h s : is_oldest h s -> head (sort_hist h) = Some s.
Proof.
  intros (h1 & h2 & -> & H1 & H2).
  induction H1 as [|x h1 Hx H1 IH]; unfold sort_hist in *; cbn [app sort].
  - rewrite head_insert_sorted.
    destruct (head _) as [m|] eqn:Hm; [|reflexivity].
    apply head_Some_elem_of, list_elem_of_In in Hm.
    apply (Permutation_in _ (sort_perm _ h2)) in Hm.
    rewrite List.Forall_forall in H2. specialize (H2 m Hm).
    apply Z.ltb_ge in H2. now rewrite H2.
  - rewrite head_insert_sorted, IH.
    apply Z.ltb_lt in Hx. now rewrite Hx.
Qed.

(** The last item of the sorted window is the latest sample. *)
Lemma last_sort_hist h s : is_latest h s -> last (sort_hist h) = Some s.
Proof.
  intros (h1 & h2 & -> & H1 & H2).
  induction H1 as [|x h1 Hx H1 IH]; cbn [app]; unfold sort_hist in *;
    cbn [sort]; rewrite last_insert_sorted by apply sort_hist_sorted.
  - destruct (last _) as [m|] eqn:Hm; [|reflexivity].
    apply last_Some_elem_of, list_elem_of_In in Hm.
    apply (Permutation_in _ (sort_perm _ h2)) in Hm.
    rewrite List.Forall_forall in H2. specialize (H2 m Hm).
    apply Z.ltb_lt in H2. now rewrite H2.
  - rewrite IH. apply Z.ltb_ge in Hx. now rewrite Hx.
Qed.

(** Proves [is_oldest h s] or [is_latest h s] on a concrete window from
    the samples before and after [s]. *)
Ltac split_window h1 h2 :=
  exists h1, h2; split; [vm_compute; reflexivity|];
  split; repeat constructor; vm_compute; discriminate.

Lemma trend_of_hist_default o :
  trend_of_hist o = trend_of_hist (Some (default [] o)).
Proof. now destruct o. Qed.

Lemma trend_of_hist_short h :
  (length h < 2)%nat -> trend_of_hist (Some h) = Ok no_trend.
Proof. intros H%Nat.ltb_lt. unfold trend_of_hist. now rewrite H. Qed.

Lemma trend_of_hist_full h t0 oldest t1 latest :
  (2 <= length h)%nat ->
  is_oldest h (t0, oldest) -> is_latest h (t1, latest) ->
  trend_of_hist (Some h)
  = bind (pct_change oldest latest) (fun pct =>
      Ok {| ccu_3d_ago := Some oldest; pct_change_3d := pct |}).
Proof.
  intros Hlen Ho Hl. unfold trend_of_hist.
  apply Nat.ltb_ge in Hlen. rewrite Hlen.
  now rewrite (head_sort_hist _ _ Ho), (last_sort_hist _ _ Hl).
Qed.

Section Trends.
Variable fromisoformat : string -> option datetime.
Variable float_of_str : string -> option float.

Lemma window_samples_cons ts_idx app_idx ccu_idx cutoff key r rs :
  window_samples fromisoformat float_of_str ts_idx app_idx ccu_idx cutoff
    key (r :: rs)
  = match window_sample fromisoformat float_of_str ts_idx app_idx ccu_idx
            cutoff key r with
    | Some s => s :: window_samples fromisoformat float_of_str ts_idx
                       app_idx ccu_idx cutoff key rs
    | None => window_samples fromisoformat float_of_str ts_idx app_idx
                ccu_idx cutoff key rs
    end.
Proof. reflexivity. Qed.

Lemma collect_ok ts_idx app_idx ccu_idx cutoff rows : forall per_app,
  forallb (row_ok fromisoformat ts_idx app_idx cutoff) rows = true ->
  exists per_app',
    collect fromisoformat float_of_str ts_idx app_idx ccu_idx cutoff
      rows per_app = Ok per_app'
    /\ forall key,
         default [] (per_app' !! key)
         = default [] (per_app !! key)
           ++ window_samples fromisoformat float_of_str
                ts_idx app_idx ccu_idx cutoff key rows.
Proof.
  induction rows as [|r rs IH]; intros per_app H.
  - exists per_app. split; [reflexivity|]. intros key. now rewrite app_nil_r.
  - cbn [forallb] in H. apply andb_true_iff in H as [Hr Hrs].
    cbn [collect]. unfold row_ok in Hr.
    destruct (cell_ts fromisoformat ts_idx r) as [[us|t]|] eqn:Hts;
      [discriminate| |].
    + cbn [aware_instant bind].
      destruct (t <? cutoff) eqn:Hlt.
      * destruct (IH per_app Hrs) as (m & Hm & Hk). exists m.
        split; [exact Hm|]. intros key.
        rewrite Hk, window_samples_cons. unfold window_sample.
        rewrite Hts, (Z.leb_antisym t cutoff), Hlt.
        now destruct (r !! app_idx), (cell_ccu float_of_str ccu_idx r).
      * cbn [orb] in Hr. apply bool_decide_eq_true in Hr as [a Ha].
        rewrite Ha. cbn [of_option bind].
        destruct (cell_ccu float_of_str ccu_idx r) as [c|] eqn:Hc.
        -- destruct (IH (<[a := default [] (per_app !! a) ++ [(t, c)]]>
                            per_app) Hrs) as (m & Hm & Hk).
           exists m. split; [exact Hm|]. intros key.
           rewrite Hk, window_samples_cons. unfold window_sample.
           rewrite Hts, Ha, Hc, (Z.leb_antisym t cutoff), Hlt. cbn [negb andb].
           destruct (String.eqb_spec a key) as [->|Hne].
           ++ rewrite lookup_insert_eq. cbn. now rewrite <- app_assoc.
           ++ now rewrite lookup_insert_ne.
        -- destruct (IH per_app Hrs) as (m & Hm & Hk). exists m.
           split; [exact Hm|]. intros key.
           rewrite Hk, window_samples_cons. unfold window_sample.
           now rewrite Hts, Ha, Hc.
    + destruct (IH per_app Hrs) as (m & Hm & Hk). exists m.
      split; [exact Hm|]. intros key.
      rewrite Hk, window_samples_cons. unfold window_sample.
      now rewrite Hts.
Qed.

Lemma trends_loop_ok per_app appids : forall result,
  forallb (fun a => is_ok (trend_of_hist (per_app !! str_of_Z a))) appids
  = true ->
  exists result',
    trends_loop per_app appids result = Ok result'
    /\ forall a,
         result' !! a
         = if decide (a ∈ appids)
           then try_ (trend_of_hist (per_app !! str_of_Z a))
           else result !! a.
Proof.
  induction appids as [|appid rest IH]; intros result H.
  - exists result. split; [reflexivity|]. intros a.
    destruct (decide _) as [Hin|]; [|reflexivity]. now apply elem_of_nil in Hin.
  - cbn [forallb] in H. apply andb_true_iff in H as [Hh Hrest].
    cbn [trends_loop].
    destruct (trend_of_hist (per_app !! str_of_Z appid)) as [t|e] eqn:Ht;
      [|discriminate].
    cbn [bind].
    destruct (IH (<[appid := t]> result) Hrest) as (m & Hm & Hk).
    exists m. split; [exact Hm|]. intros a. rewrite Hk.
    destruct (decide (a = appid)) as [->|Hne].
    + rewrite Ht, lookup_insert_eq. cbn.
      destruct (decide (appid ∈ rest)) as [H1|H1],
               (decide (appid ∈ appid :: rest)) as [H2|H2];
        try reflexivity; exfalso; apply H2; now left.
    + rewrite lookup_insert_ne by congruence.
      destruct (decide (a ∈ rest)) as [H1|H1],
               (decide (a ∈ appid :: rest)) as [H2|H2];
        try reflexivity; exfalso.
      * apply H2. now right.
      * apply elem_of_cons in H2 as [H2|H2]; [congruence|contradiction].
Qed.

Lemma columns_Some header ts_idx app_idx ccu_idx :
  columns header = Some (ts_idx, app_idx, ccu_idx) ->
  list_index "timestamp_utc" header = Some ts_idx
  /\ list_index "appid" header = Some app_idx
  /\ list_index "current_players" header = Some ccu_idx.
Proof.
  unfold columns.
  destruct (list_index "timestamp_utc" header),
           (list_index "appid" header),
           (list_index "current_players" header); try discriminate.
  now intros [= -> -> ->].
Qed.

(** What a run of [compute_3d_trends_from_history] on a tab that is
    [history_ok] returns. *)
Lemma compute_spec now ws appids :
  history_ok fromisoformat float_of_str now ws appids = true ->
  exists result,
    compute_3d_trends_from_history fromisoformat float_of_str now ws appids
    = Ok result
    /\ (forall a, a ∈ appids ->
          trend_of_hist
            (Some (samples_3d fromisoformat float_of_str now ws a))
          = Ok (main_t3 result a))
    /\ (forall a, a ∉ appids -> result !! a = None)
    /\ (forall a header r rest,
          a ∈ appids -> ws = Some (header :: r :: rest) ->
          result !! a = Some (main_t3 result a)).
Proof.
  intros Hok.
  assert (Hempty : forall a,
             (a ∈ appids ->
              samples_3d fromisoformat float_of_str now ws a = [] ->
              trend_of_hist
                (Some (samples_3d fromisoformat float_of_str now ws a))
              = Ok (main_t3 ∅ a))
             /\ (∅ : gmap Z trend) !! a = None).
  { intros a. split; [|apply lookup_empty]. now intros _ ->. }
  destruct appids as [|a0 appids'] eqn:Happ.
  { exists ∅. split; [reflexivity|]. split; [|split].
    - intros a Ha. now apply elem_of_nil in Ha.
    - intros a _. apply lookup_empty.
    - intros a ? ? ? Ha. now apply elem_of_nil in Ha. }
  rewrite <- Happ in *. clear Happ.
  unfold compute_3d_trends_from_history.
  destruct appids as [|a1 appids1] eqn:Happ.
  { exists ∅. split; [reflexivity|]. split; [|split].
    - intros a Ha. now apply elem_of_nil in Ha.
    - intros a _. apply lookup_empty.
    - intros a ? ? ? Ha. now apply elem_of_nil in Ha. }
  rewrite <- Happ in *. clear Happ a1 appids1 a0 appids'.
  destruct ws as [[|header [|r rest]]|].
  - exists ∅. split; [reflexivity|]. split; [|split].
    + intros a Ha. now apply Hempty.
    + intros a _. apply lookup_empty.
    + intros; discriminate.
  - exists ∅. split; [reflexivity|]. split; [|split].
    + intros a Ha. apply Hempty; [exact Ha|].
      cbn. now destruct (columns header) as [[[? ?] ?]|].
    + intros a _. apply lookup_empty.
    + intros; discriminate.
  - cbn [history_ok] in Hok.
    destruct (columns header) as [[[ts_idx app_idx] ccu_idx]|] eqn:Hcol;
      [|discriminate].
    apply andb_true_iff in Hok as [Hrows Hitems].
    destruct (columns_Some _ _ _ _ Hcol) as (Hts & Happ & Hccu).
    unfold header_index. rewrite Hts, Happ, Hccu. cbn [of_option bind].
    destruct (collect_ok ts_idx app_idx ccu_idx (now - 3 * DAY_US)
                (r :: rest) ∅ Hrows) as (per_app & Hcollect & Hper).
    rewrite Hcollect. cbn [bind].
    assert (Hhist : forall a,
               trend_of_hist (per_app !! str_of_Z a)
               = trend_of_hist
                   (Some (samples_3d fromisoformat float_of_str now
                            (Some (header :: r :: rest)) a))).
    { intros a. rewrite trend_of_hist_default, Hper, lookup_empty.
      cbn [default app samples_3d]. now rewrite Hcol. }
    destruct (trends_loop_ok per_app appids ∅) as (result & Hloop & Hres).
    { rewrite forallb_forall in *. intros a Ha. rewrite Hhist.
      now apply Hitems. }
    exists result. split; [exact Hloop|].
    assert (Hin : forall a, a ∈ appids ->
              exists t, trend_of_hist
                          (Some (samples_3d fromisoformat float_of_str now
                                   (Some (header :: r :: rest)) a)) = Ok t
                        /\ result !! a = Some t).
    { intros a Ha. rewrite Hres, Hhist.
      destruct (decide (a ∈ appids)); [|contradiction].
      rewrite forallb_forall in Hitems.
      specialize (Hitems a (proj1 (list_elem_of_In _ _) Ha)).
      destruct (trend_of_hist _) as [t|]; [|discriminate]. now exists t. }
    split; [|split].
    + intros a Ha. destruct (Hin a Ha) as (t & Ht & Hl).
      unfold main_t3. rewrite Hl. exact Ht.
    + intros a Ha. rewrite Hres, lookup_empty.
      now destruct (decide (a ∈ appids)).
    + intros a ? ? ? Ha _. destruct (Hin a Ha) as (t & Ht & Hl).
      unfold main_t3. now rewrite Hl.
  - exists ∅. split; [reflexivity|]. split; [|split].
    + intros a Ha. now apply Hempty.
    + intros a _. apply lookup_empty.
    + intros; discriminate.
Qed.

(** C3.  On a tab that is [history_ok], an item with fewer than two
    samples in the window (an item the tab does not know among them) has
    the trend [{ccu_3d_ago: None, pct_change_3d: 0.0}]: the computation
    returns, [main] reads that trend for the item, and it is the entry of
    the item in the result when the item was asked for and the tab has a
    line below its header. *)
Theorem short_window_no_trend now ws appids appid :
  history_ok fromisoformat float_of_str now ws appids = true ->
  (length (samples_3d fromisoformat float_of_str now ws appid) < 2)%nat ->
  exists result,
    compute_3d_trends_from_history fromisoformat float_of_str now ws appids
    = Ok result
    /\ main_t3 result appid = no_trend
    /\ (forall header r rest,
          In appid appids -> ws = Some (header :: r :: rest) ->
          result !! appid = Some no_trend).
Proof.
  intros Hok Hlen.
  destruct (compute_spec now ws appids Hok)
    as (result & Hres & Hin & Hout & Hl).
  exists result. split; [exact Hres|].
  assert (Hm : main_t3 result appid = no_trend).
  { destruct (decide (appid ∈ appids)) as [Ha|Ha].
    - specialize (Hin appid Ha).
      rewrite (trend_of_hist_short _ Hlen) in Hin. now injection Hin.
    - unfold main_t3. now rewrite (Hout appid Ha). }
  split; [exact Hm|].
  intros header r rest Ha%list_elem_of_In Hws.
  now rewrite (Hl appid header r rest Ha Hws), Hm.
Qed.

(** C4.  On a tab that is [history_ok], for a requested item with at
    least two samples in the window whose oldest sample has a value
    [oldest > 0], the entry of the item is
    [{ccu_3d_ago: oldest, pct_change_3d: (latest - oldest) / oldest * 100.0}],
    [oldest] and [latest] being the values of the first and of the last
    sample once the window is sorted by timestamp. *)
Theorem full_window_trend now ws appids appid t0 oldest t1 latest q :
  history_ok fromisoformat float_of_str now ws appids = true ->
  In appid appids ->
  (2 <= length (samples_3d fromisoformat float_of_str now ws appid))%nat ->
  is_oldest (samples_3d fromisoformat float_of_str now ws appid) (t0, oldest) ->
  is_latest (samples_3d fromisoformat float_of_str now ws appid) (t1, latest) ->
  0 < oldest ->
  py_truediv (latest - oldest) oldest = Ok q ->
  exists result,
    compute_3d_trends_from_history fromisoformat float_of_str now ws appids
    = Ok result
    /\ result !! appid
       = Some {| ccu_3d_ago := Some oldest; pct_change_3d := fmul q f100 |}
    /\ head (sort_hist (samples_3d fromisoformat float_of_str now ws appid))
       = Some (t0, oldest)
    /\ last (sort_hist (samples_3d fromisoformat float_of_str now ws appid))
       = Some (t1, latest).
Proof.
  intros Hok Ha%list_elem_of_In Hlen Ho Hl Hpos Hq.
  destruct (compute_spec now ws appids Hok) as (result & Hres & Hin & _ & Hlk).
  exists result. split; [exact Hres|].
  split; [|split; [now apply head_sort_hist | now apply last_sort_hist]].
  specialize (Hin appid Ha).
  rewrite (trend_of_hist_full _ _ _ _ _ Hlen Ho Hl) in Hin.
  unfold pct_change in Hin. apply Z.leb_gt in Hpos. rewrite Hpos, Hq in Hin.
  cbn [bind] in Hin. injection Hin as Hin.
  assert (exists header r rest, ws = Some (header :: r :: rest))
    as (header & r & rest & Hws).
  { destruct ws as [[|header [|r rest]]|]; cbn in Hlen; try lia.
    - destruct (columns header) as [[[? ?] ?]|]; cbn in Hlen; lia.
    - eauto. }
  now rewrite (Hlk appid header r rest Ha Hws), <- Hin.
Qed.

(** The zero-baseline guard of v2.0: with an oldest value that is not
    positive the percentage is 0.0. *)
Lemma zero_baseline_3d now ws appids appid t0 oldest :
  history_ok fromisoformat float_of_str now ws appids = true ->
  In appid appids ->
  (2 <= length (samples_3d fromisoformat float_of_str now ws appid))%nat ->
  is_oldest (samples_3d fromisoformat float_of_str now ws appid) (t0, oldest) ->
  oldest <= 0 ->
  exists result,
    compute_3d_trends_from_history fromisoformat float_of_str now ws appids
    = Ok result
    /\ result !! appid
       = Some {| ccu_3d_ago := Some oldest; pct_change_3d := f0 |}.
Proof.
  intros Hok Ha%list_elem_of_In Hlen Ho Hle.
  destruct (compute_spec now ws appids Hok) as (result & Hres & Hin & _ & Hlk).
  exists result. split; [exact Hres|].
  specialize (Hin appid Ha). unfold trend_of_hist in Hin.
  pose proof Hlen as Hlen'. apply Nat.ltb_ge in Hlen'. rewrite Hlen' in Hin.
  rewrite (head_sort_hist _ _ Ho) in Hin.
  destruct (last _) as [[t1 latest]|] eqn:Hlast.
  2:{ exfalso. apply last_None in Hlast.
      pose proof (Permutation_length (sort_perm ts_lt
        (samples_3d fromisoformat float_of_str now ws appid))) as Hp.
      unfold sort_hist in Hlast. rewrite Hlast in Hp. cbn in Hp. lia. }
  unfold pct_change in Hin. apply Z.leb_le in Hle. rewrite Hle in Hin.
  cbn [bind] in Hin. injection Hin as Hin.
  assert (exists header r rest, ws = Some (header :: r :: rest))
    as (header & r & rest & Hws).
  { destruct ws as [[|header [|r rest]]|]; cbn in Hlen; try lia.
    - destruct (columns header) as [[[? ?] ?]|]; cbn in Hlen; lia.
    - eauto. }
  now rewrite (Hlk appid header r rest Ha Hws), <- Hin.
Qed.

End Trends.
End V2Facts.

(* ===================================================================== *)
(** ** The scenarios on v2.0                                              *)
(* ===================================================================== *)

Module V2Scenarios.
Import Py V2 Spec Examples V2Facts.

(** Scenario D: the trim pass of the run of 2024-03-11 leaves only the
    sample that is one day old. *)
Lemma scenario_D :
  trim_history Read.fromisoformat now tab_D = Ok [HISTORY_HEADER; sample_1d].
Proof.
  destruct (trim_deletes_exactly_expired Read.fromisoformat now
              HISTORY_HEADER [sample_10d; sample_1d] 0%nat
              eq_refl eq_refl) as (kept & H & -> & _).
  exact H.
Defined.

(** A line without a readable timestamp outlives the trim pass that
    deletes the ten-day-old sample next to it. *)
Lemma undated_line_kept :
  exists kept,
    (after_trim Read.fromisoformat now tab_undated).1 = HISTORY_HEADER :: kept
    /\ In undated kept.
Proof.
  apply (trim_keeps_unparseable Read.fromisoformat now HISTORY_HEADER
           [sample_10d; undated] 0%nat undated eq_refl).
  - right; left; reflexivity.
  - reflexivity.
Defined.

(** Ingestion rejects no negative value: a batch whose only sample has
    the player count -5 ends without an exception, and the sample is a
    line of the tab afterwards. *)
Lemma negative_metric_is_stored :
  append_history_rows Read.fromisoformat now_utc now [] [negative_sample]
  = ([HISTORY_HEADER; [now_utc; "10"; "X"; "-5"]], None).
Proof. vm_compute. reflexivity. Qed.

(** In a batch, the sample without an id is skipped and its neighbours
    are appended; the negative player count is among the lines. *)
Lemma batch_lines :
  rows_to_append now_utc [negative_sample; anonymous_sample; plain_sample]
  = [[now_utc; "10"; "X"; "-5"]; [now_utc; "11"; "Y"; "80"]].
Proof.
  pose proof (append_skips_or_stores Read.fromisoformat now_utc
                [negative_sample] [plain_sample] anonymous_sample)
    as (Hskip & _ & _).
  etransitivity; [exact (Hskip (or_introl eq_refl))|].
  pose proof (append_skips_or_stores Read.fromisoformat now_utc
                [] [plain_sample] negative_sample) as (_ & Hstore & _).
  etransitivity;
    [exact (Hstore 10 (-5) eq_refl ltac:(discriminate) eq_refl)|].
  reflexivity.
Defined.

(** Scenario B on the tab: item 11 has one sample, item 99 none; both get
    the trend without signal. *)
Lemma single_sample_no_trend :
  exists result,
    compute_3d_trends_from_history Read.fromisoformat Read.float_of_str
      now (Some history_tab) [10; 11; 12; 13; 99] = Ok result
    /\ result !! 11 = Some no_trend
    /\ result !! 99 = Some no_trend.
Proof.
  destruct (short_window_no_trend Read.fromisoformat Read.float_of_str
              now (Some history_tab) [10; 11; 12; 13; 99] 11)
    as (result & H & _ & Hl); [vm_compute; reflexivity | vm_compute; lia |].
  destruct (short_window_no_trend Read.fromisoformat Read.float_of_str
              now (Some history_tab) [10; 11; 12; 13; 99] 99)
    as (result' & H' & _ & Hl'); [vm_compute; reflexivity | vm_compute; lia |].
  assert (result' = result) as -> by congruence.
  exists result. split; [exact H|]. split.
  - eapply Hl; [|reflexivity]. cbn; tauto.
  - eapply Hl'; [|reflexivity]. cbn; tauto.
Defined.

(** Scenario A: 100 three days ago and 150 now give 50.0 and 100. *)
Lemma scenario_A :
  exists result,
    compute_3d_trends_from_history Read.fromisoformat Read.float_of_str
      now (Some history_tab) [10; 11; 12; 13; 99] = Ok result
    /\ result !! 10
       = Some {| ccu_3d_ago := Some 100; pct_change_3d := float_of_Z 50 |}.
Proof.
  destruct (full_window_trend Read.fromisoformat Read.float_of_str
              now (Some history_tab) [10; 11; 12; 13; 99] 10
              (Read.wall_us 2024 3 8 12 0 0) 100
              (Read.wall_us 2024 3 11 12 0 0) 150
              (S754_finite false 4503599627370496 (-53)))
    as (result & H & Hl & _).
  - vm_compute. reflexivity.
  - cbn; tauto.
  - vm_compute. lia.
  - split_window
      ([] : list V2.sample)
      ([(Read.wall_us 2024 3 11 12 0 0, 150)] : list V2.sample).
  - split_window
      ([(Read.wall_us 2024 3 8 12 0 0, 100)] : list V2.sample)
      ([] : list V2.sample).
  - lia.
  - vm_compute. reflexivity.
  - exists result. split; [exact H|]. rewrite Hl. reflexivity.
Defined.

End V2Scenarios.

(* ===================================================================== *)
(** ** The trends and the watchlist of v1.8.3                             *)
(* ===================================================================== *)

Module V1Facts.
Import Py V1 Spec PyFacts.

(** *** Numbers *)

Lemma num_val_or_0 v : num_val (or_0 v) = num_val v.
Proof.
  unfold or_0. destruct v as [n|x]; cbn.
  - destruct (Z.eqb_spec n 0); cbn; congruence.
  - now destruct x.
Qed.

Lemma num_cmp_or_0_l v w : num_cmp (or_0 v) w = num_cmp v w.
Proof. unfold num_cmp. now rewrite num_val_or_0. Qed.

Lemma num_cmp_antisym a b : num_cmp b a = option_map CompOpp (num_cmp a b).
Proof.
  unfold num_cmp. destruct (num_val a), (num_val b); cbn; try reflexivity.
  now rewrite xcmp_antisym.
Qed.

Lemma num_geb_not_ltb a b : num_geb a b = true -> num_ltb a b = false.
Proof.
  unfold num_geb, num_leb, num_ltb. rewrite (num_cmp_antisym a b).
  now destruct (num_cmp a b) as [[]|].
Qed.

(** *** The rows of [compute_7d_trends] *)

Lemma group_add_rows (L : list log_row) r per_app :
  In r L ->
  (forall k rows x,
     In (k, rows) per_app -> In x rows -> In x L /\ appid x = k) ->
  forall k rows x, In (k, rows) (group_add r per_app) -> In x rows ->
                   In x L /\ appid x = k.
Proof.
  intros Hr. induction per_app as [|[k0 rows0] rest IH]; intros Hinv k rows x.
  - cbn. intros [[= <- <-]|[]] [<-|[]]. now split.
  - cbn [group_add]. destruct (String.eqb_spec k0 (appid r)) as [Heq|Hne].
    + intros [[= <- <-]|Hin] Hx.
      * apply in_app_or in Hx as [Hx|[<-|[]]]; [|now split].
        apply (Hinv k0 rows0); [now left|assumption].
      * apply (Hinv k rows); [now right|assumption].
    + intros [[= <- <-]|Hin] Hx.
      * apply (Hinv k0 rows0); [now left|assumption].
      * apply IH with (k := k) (rows := rows); try assumption.
        intros k' rows' x' Hin' Hx'.
        apply (Hinv k' rows'); [now right|assumption].
Qed.

Lemma fold_group_rows (L : list log_row) log : forall per_app,
  (forall r, In r log -> In r L) ->
  (forall k rows x,
     In (k, rows) per_app -> In x rows -> In x L /\ appid x = k) ->
  forall k rows x,
    In (k, rows)
       (fold_left (fun per_app r => group_add r per_app) log per_app) ->
    In x rows -> In x L /\ appid x = k.
Proof.
  induction log as [|r log IH]; intros per_app HL Hinv; [exact Hinv|].
  cbn [fold_left]. apply IH.
  - intros r' Hr'. apply HL. now right.
  - apply group_add_rows; [apply HL; now left | exact Hinv].
Qed.

(** The rows grouped under an id are rows of the log with that id. *)
Lemma group_by_app_rows log aid rows r :
  In (aid, rows) (group_by_app log) -> In r rows ->
  In r log /\ appid r = aid.
Proof.
  unfold group_by_app. rewrite in_map_iff.
  intros ([k rows0] & [= <- <-] & Hin) Hr.
  apply (Permutation_in _ (sort_perm _ rows0)) in Hr.
  revert Hr. apply (fold_group_rows log log []); auto.
  intros ? ? ? [].
Qed.

Section Rows.
Variable float_of_str : string -> option float.

(** Every dict of the result comes from the window of one app: the rows
    of the log with that id dated from [cutoff] on; its numbers are those
    of the first and of the last row of the window. *)
Lemma compute_7d_row cutoff log t :
  In t (compute_7d_trends float_of_str cutoff log) ->
  exists window earliest latest,
    head window = Some earliest /\ last window = Some latest
    /\ (forall r, In r window ->
          In r log /\ appid r = t_appid t /\ String.leb cutoff (date r) = true)
    /\ days_in_window t = length window
    /\ ccu_latest t = py_round2 (fnum float_of_str latest)
    /\ ccu_pct_change_7d t
       = py_round2_num (pct_7d (fnum float_of_str latest)
                               (fnum float_of_str earliest)).
Proof.
  unfold compute_7d_trends, sort_reverse. intros Hin.
  apply (Permutation_in _ (sort_perm _ _)) in Hin.
  apply list_elem_of_In, list_elem_of_omap in Hin as ([aid rows] & Hg & Ht).
  apply list_elem_of_In in Hg.
  unfold trend_of_window in Ht.
  destruct (head (in_window cutoff rows)) as [earliest|] eqn:Hh;
    [|discriminate].
  destruct (last (in_window cutoff rows)) as [latest|] eqn:Hl;
    [|discriminate].
  injection Ht as <-.
  exists (in_window cutoff rows), earliest, latest. cbn.
  split; [exact Hh|]. split; [exact Hl|].
  split; [|repeat split; reflexivity].
  intros r Hr. apply filter_In in Hr as [Hr Hd].
  destruct (group_by_app_rows log aid rows r Hg Hr). auto.
Qed.

End Rows.

(** *** The watchlist *)

Lemma selected_spec min_ccu min_pct t :
  num_geb (PyFloat (ccu_latest t)) (PyInt min_ccu) = true ->
  selected min_ccu min_pct false t = true
  <-> (days_in_window t < 2)%nat
      \/ num_geb (ccu_pct_change_7d t) (PyFloat min_pct) = true.
Proof.
  intros Hccu. unfold selected.
  assert (num_ltb (or_0 (PyFloat (ccu_latest t))) (PyInt min_ccu) = false)
    as ->.
  { unfold num_ltb. rewrite num_cmp_or_0_l.
    now apply num_geb_not_ltb in Hccu. }
  rewrite orb_true_iff, Nat.ltb_lt.
  unfold num_geb, num_leb. rewrite (num_cmp_antisym (or_0 _)), num_cmp_or_0_l.
  now rewrite <- (num_cmp_antisym (ccu_pct_change_7d t)).
Qed.

(** C2.  Without [require_history], an item whose latest value meets
    [min_ccu] is on the watchlist exactly when it is among the trends and
    has fewer than two samples in the window or a percentage of at least
    [min_pct]. *)
Theorem benefit_of_the_doubt trends min_ccu min_pct t :
  num_geb (PyFloat (ccu_latest t)) (PyInt min_ccu) = true ->
  (In t (build_watchlist trends min_ccu min_pct false)
   <-> In t trends
       /\ ((days_in_window t < 2)%nat
           \/ num_geb (ccu_pct_change_7d t) (PyFloat min_pct) = true)).
Proof.
  intros Hccu. unfold build_watchlist, sort_reverse.
  rewrite <- (selected_spec min_ccu min_pct t Hccu), <- filter_In.
  split; apply Permutation_in;
    [apply sort_perm | apply Permutation_sym, sort_perm].
Qed.

(** *** The order of the watchlist *)

Lemma num_eqb_refl_int n : num_eqb (PyInt n) (PyInt n) = true.
Proof. unfold num_eqb, num_cmp. cbn [num_val]. now rewrite xcmp_refl. Qed.

Lemma num_eqb_common x a b :
  num_eqb x a = true -> num_eqb x b = true -> num_eqb b a = true.
Proof.
  unfold num_eqb, num_cmp.
  destruct (num_val x) as [vx|], (num_val a) as [va|], (num_val b) as [vb|];
    try discriminate.
  destruct (xcmp vx va) eqn:Ha; try discriminate.
  destruct (xcmp vx vb) eqn:Hb; try discriminate.
  intros _ _. now rewrite <- (xcmp_eq_l _ _ _ Hb), Ha.
Qed.

Lemma watch_key_vals t :
  keys_ordered pct_of_7d latest_7d t ->
  exists v, mapM num_val (watch_key t) = Some v.
Proof.
  intros [[vp Hp] [vl Hl]]. unfold pct_of_7d, latest_7d in *.
  eexists. unfold watch_key. cbn. cbn in Hl. rewrite Hp, Hl. reflexivity.
Qed.

Lemma watch_lt_asym a b :
  keys_ordered pct_of_7d latest_7d a -> keys_ordered pct_of_7d latest_7d b ->
  tuple_ltb (watch_key b) (watch_key a) = true ->
  tuple_ltb (watch_key a) (watch_key b) = false.
Proof.
  intros [va Ha]%watch_key_vals [vb Hb]%watch_key_vals.
  rewrite (tuple_ltb_lex _ _ _ _ Hb Ha), (tuple_ltb_lex _ _ _ _ Ha Hb).
  rewrite (lex_antisym vb va). now destruct (lex vb va).
Qed.

Lemma watch_le_trans a b c :
  keys_ordered pct_of_7d latest_7d a -> keys_ordered pct_of_7d latest_7d b ->
  keys_ordered pct_of_7d latest_7d c ->
  tuple_ltb (watch_key a) (watch_key b) = false ->
  tuple_ltb (watch_key b) (watch_key c) = false ->
  tuple_ltb (watch_key a) (watch_key c) = false.
Proof.
  intros [va Ha]%watch_key_vals [vb Hb]%watch_key_vals [vc Hc]%watch_key_vals.
  rewrite (tuple_ltb_lex _ _ _ _ Ha Hb), (tuple_ltb_lex _ _ _ _ Hb Hc),
          (tuple_ltb_lex _ _ _ _ Ha Hc).
  intros Hab Hbc.
  assert (lex vc va <> Gt) as Hca.
  { apply (lex_le_trans vc vb va).
    - rewrite (lex_antisym vb vc). now destruct (lex vb vc).
    - rewrite (lex_antisym va vb). now destruct (lex va vb). }
  rewrite (lex_antisym va vc) in Hca. now destruct (lex va vc).
Qed.

(** On rows without NaN, the key tuple of line 187 orders as the
    specification says. *)
Lemma watch_before_iff a b :
  keys_ordered pct_of_7d latest_7d a -> keys_ordered pct_of_7d latest_7d b ->
  tuple_ltb (watch_key a) (watch_key b) = false
  <-> watch_before full_7d pct_of_7d latest_7d a b.
Proof.
  intros [[vpa Hpa] [vla Hla]] [[vpb Hpb] [vlb Hlb]].
  assert (Hp : num_cmp (pct_of_7d a) (pct_of_7d b) = Some (xcmp vpa vpb))
    by (unfold num_cmp; now rewrite Hpa, Hpb).
  assert (Hp' : num_cmp (pct_of_7d b) (pct_of_7d a)
                = Some (CompOpp (xcmp vpa vpb)))
    by (now rewrite num_cmp_antisym, Hp).
  assert (Hl : num_cmp (latest_7d a) (latest_7d b) = Some (xcmp vla vlb))
    by (unfold num_cmp; now rewrite Hla, Hlb).
  assert (Hl' : num_cmp (latest_7d b) (latest_7d a)
                = Some (CompOpp (xcmp vla vlb)))
    by (now rewrite num_cmp_antisym, Hl).
  unfold watch_before, watch_key, num_gtb, num_geb, num_leb.
  cbn [tuple_ltb]. unfold num_eqb, num_ltb.
  change (ccu_pct_change_7d a) with (pct_of_7d a).
  change (ccu_pct_change_7d b) with (pct_of_7d b).
  change (PyFloat (ccu_latest a)) with (latest_7d a).
  change (PyFloat (ccu_latest b)) with (latest_7d b).
  change (2 <=? days_in_window a)%nat with (full_7d a).
  change (2 <=? days_in_window b)%nat with (full_7d b).
  rewrite Hp, Hp', Hl, Hl'.
  destruct (full_7d a), (full_7d b), (xcmp vpa vpb), (xcmp vla vlb);
    vm_compute; intuition congruence.
Qed.

Lemma list_filter_sublist {A} (p : A -> bool) l : sublist (List.filter p l) l.
Proof.
  induction l as [|x l IH]; cbn; [constructor|].
  destruct (p x); now constructor.
Qed.

End V1Facts.

(* ===================================================================== *)
(** ** Where the two variants differ                                      *)
(* ===================================================================== *)

Module Variants.
Import Py Spec Examples PyFacts.

Lemma StronglySorted_weaken {A} (P : A -> Prop) (R R' : A -> A -> Prop) l :
  Forall P l ->
  (forall a b, P a -> P b -> R a b -> R' a b) ->
  StronglySorted R l -> StronglySorted R' l.
Proof.
  intros HP HR Hs. induction Hs as [|x l Hs IH Hx]; [constructor|].
  inversion HP as [|? ? Px Pl]; subst.
  constructor; [now apply IH|].
  rewrite List.Forall_forall in *. intros y Hy. apply HR; auto.
Qed.

Lemma Forall_list_filter {A} (P : A -> Prop) (p : A -> bool) l :
  Forall P l -> Forall P (List.filter p l).
Proof.
  rewrite !List.Forall_forall. intros H x Hx%filter_In. now apply H.
Qed.

(** Scenario B: item 11, with its single sample of 80, is on the
    watchlist for [min_ccu = 50] and [min_pct = 25.0]. *)
Lemma scenario_B :
  In trend_11 (V1.compute_7d_trends Read.float_of_str cutoff_7d log)
  /\ In trend_11
       (V1.build_watchlist
          (V1.compute_7d_trends Read.float_of_str cutoff_7d log) 50 f25 false).
Proof.
  assert (H : In trend_11
                (V1.compute_7d_trends Read.float_of_str cutoff_7d log)).
  { vm_compute. tauto. }
  split; [exact H|].
  refine (proj2 (V1Facts.benefit_of_the_doubt
                   (V1.compute_7d_trends Read.float_of_str cutoff_7d log)
                   50 f25 trend_11 _) _).
  - vm_compute. reflexivity.
  - split; [exact H|]. left. vm_compute. lia.
Defined.

(** C1 (amended).  With an oldest value that is not positive, v2.0 gives
    the percentage 0.0, whatever the latest value; v1.8.3 gives 100 when
    the latest value is positive and 0 otherwise. *)
Theorem zero_baseline :
  (forall fromisoformat float_of_str now ws appids appid t0 oldest,
     history_ok fromisoformat float_of_str now ws appids = true ->
     In appid appids ->
     (2 <= length (samples_3d fromisoformat float_of_str now ws appid))%nat ->
     is_oldest (samples_3d fromisoformat float_of_str now ws appid)
               (t0, oldest) ->
     oldest <= 0 ->
     exists result,
       V2.compute_3d_trends_from_history fromisoformat float_of_str
         now ws appids = Ok result
       /\ result !! appid
          = Some {| V2.ccu_3d_ago := Some oldest; V2.pct_change_3d := f0 |})
  /\ (forall float_of_str cutoff log t,
        In t (V1.compute_7d_trends float_of_str cutoff log) ->
        exists window earliest latest,
          head window = Some earliest /\ last window = Some latest
          /\ (forall r, In r window ->
                In r log /\ V1.appid r = V1.t_appid t
                /\ String.leb cutoff (V1.date r) = true)
          /\ V1.days_in_window t = length window
          /\ (num_gtb (PyFloat (V1.fnum float_of_str earliest)) (PyInt 0)
              = false ->
              V1.ccu_pct_change_7d t
              = if num_gtb (PyFloat (V1.fnum float_of_str latest)) (PyInt 0)
                then PyInt 100 else PyInt 0))
  /\ (forall float_of_str aid window earliest latest,
        head window = Some earliest -> last window = Some latest ->
        num_gtb (PyFloat (V1.fnum float_of_str earliest)) (PyInt 0) = false ->
        exists t,
          V1.trend_of_window float_of_str aid window = Some t
          /\ V1.days_in_window t = length window
          /\ V1.ccu_pct_change_7d t
             = if num_gtb (PyFloat (V1.fnum float_of_str latest)) (PyInt 0)
               then PyInt 100 else PyInt 0).
Proof.
  split; [|split].
  - intros. now apply (V2Facts.zero_baseline_3d _ _ _ _ _ _ t0).
  - intros fos cutoff log t Hin.
    destruct (V1Facts.compute_7d_row fos cutoff log t Hin)
      as (window & earliest & latest & Hh & Hl & Hrows & Hdays & _ & Hpct).
    exists window, earliest, latest. repeat (split; [assumption|]).
    intros He. rewrite Hpct. unfold V1.pct_7d. rewrite He.
    destruct (num_gtb (PyFloat (V1.fnum fos latest)) (PyInt 0)); reflexivity.
  - intros fos aid window earliest latest Hh Hl He.
    unfold V1.trend_of_window. rewrite Hh, Hl. eexists.
    split; [reflexivity|]. split; [reflexivity|]. cbn.
    unfold V1.pct_7d. rewrite He.
    destruct (num_gtb (PyFloat (V1.fnum fos latest)) (PyInt 0)); reflexivity.
Qed.

(** Scenario C: item 12 starts from 0 and gets 0.0 on the tab of v2.0;
    on the log of v1.8.3 the same history gets 100. *)
Lemma zero_baseline_on_examples :
  (exists result,
     V2.compute_3d_trends_from_history Read.fromisoformat Read.float_of_str
       now (Some history_tab) [12] = Ok result
     /\ result !! 12
        = Some {| V2.ccu_3d_ago := Some 0; V2.pct_change_3d := f0 |})
  /\ (exists t,
        V1.trend_of_window Read.float_of_str "12"
          [log_row_of "2024-03-10" "12" "0"; log_row_of "2024-03-11" "12" "500"]
        = Some t
        /\ V1.days_in_window t = 2%nat
        /\ V1.ccu_pct_change_7d t = PyInt 100).
Proof.
  split.
  - apply (proj1 zero_baseline Read.fromisoformat Read.float_of_str
             now (Some history_tab) [12] 12 (Read.wall_us 2024 3 10 12 0 0) 0).
    + vm_compute. reflexivity.
    + now left.
    + vm_compute. lia.
    + V2Facts.split_window
        ([] : list V2.sample)
        ([(Read.wall_us 2024 3 11 12 0 0, 500)] : list V2.sample).
    + lia.
  - exact (proj2 (proj2 zero_baseline) Read.float_of_str "12"
             [log_row_of "2024-03-10" "12" "0";
              log_row_of "2024-03-11" "12" "500"]
             (log_row_of "2024-03-10" "12" "0")
             (log_row_of "2024-03-11" "12" "500")
             eq_refl eq_refl eq_refl).
Defined.

(** The zero baseline is no zero signal on v1.8.3: item 12 has two
    samples in the window, the oldest 0 and the latest 500, and its
    percentage is 100, which is not 0.0. *)
Lemma v1_zero_baseline_is_100 :
  In trend_12 (V1.compute_7d_trends Read.float_of_str cutoff_7d log)
  /\ V1.days_in_window trend_12 = 2%nat
  /\ V1.ccu_pct_change_7d trend_12 = PyInt 100
  /\ num_eqb (V1.ccu_pct_change_7d trend_12) (PyFloat f0) = false.
Proof. vm_compute. tauto. Qed.

(** C8 (amended).  [build_watchlist] of v1.8.3, on trends without NaN,
    returns the selected rows in the order of the specification: rows
    with a full window first, then by percentage and by latest value, both
    descending; rows that tie on the three keys keep the order they had
    in [trends].  The watchlist loop of v2.0 does not sort: its rows are
    the selected rows of [trend_rows] in the order of [trend_rows]. *)
Theorem watchlist_order :
  (forall trends min_ccu min_pct require_history,
     Forall (keys_ordered pct_of_7d latest_7d) trends ->
     Permutation (V1.build_watchlist trends min_ccu min_pct require_history)
                 (List.filter (V1.selected min_ccu min_pct require_history)
                              trends)
     /\ StronglySorted (watch_before full_7d pct_of_7d latest_7d)
          (V1.build_watchlist trends min_ccu min_pct require_history)
     /\ forall t0,
          List.filter (watch_tie full_7d pct_of_7d latest_7d t0)
            (V1.build_watchlist trends min_ccu min_pct require_history)
          = List.filter (watch_tie full_7d pct_of_7d latest_7d t0)
              (List.filter (V1.selected min_ccu min_pct require_history)
                           trends))
  /\ (forall watch_min_ccu watch_min_pct trend_rows,
        sublist (V2.main_watch_rows watch_min_ccu watch_min_pct trend_rows)
                trend_rows).
Proof.
  split; [|intros; apply V1Facts.list_filter_sublist].
  intros trends min_ccu min_pct req HP.
  unfold V1.build_watchlist, sort_reverse.
  set (sel := List.filter (V1.selected min_ccu min_pct req) trends).
  set (lt := fun a b => tuple_ltb (V1.watch_key b) (V1.watch_key a)).
  assert (HPs : Forall (keys_ordered pct_of_7d latest_7d) sel)
    by now apply Forall_list_filter.
  split; [apply sort_perm|]. split.
  - apply (StronglySorted_weaken (keys_ordered pct_of_7d latest_7d)
             (fun a b => lt b a = false)).
    + apply (Permutation_Forall (Permutation_sym (sort_perm lt sel))), HPs.
    + intros a b Ha Hb. now apply V1Facts.watch_before_iff.
    + apply (sort_sorted lt (keys_ordered pct_of_7d latest_7d)); [| |exact HPs].
      * intros a b Ha Hb. now apply V1Facts.watch_lt_asym.
      * intros a b c Ha Hb Hc. now apply V1Facts.watch_le_trans.
  - intros t0. apply sort_stable. intros a b Ha Hb.
    unfold watch_tie in Ha, Hb.
    apply andb_true_iff in Ha as [[Hfa Hpa]%andb_true_iff Hla].
    apply andb_true_iff in Hb as [[Hfb Hpb]%andb_true_iff Hlb].
    apply eqb_prop in Hfa, Hfb.
    unfold full_7d, pct_of_7d, latest_7d in *.
    unfold lt, V1.watch_key. cbn [tuple_ltb].
    rewrite <- Hfa, <- Hfb, V1Facts.num_eqb_refl_int.
    rewrite (V1Facts.num_eqb_common _ _ _ Hpa Hpb).
    now rewrite (V1Facts.num_eqb_common _ _ _ Hla Hlb).
Qed.

(** The watchlist of v1.8.3 on the example log: items 12 and 10, with a
    full window, stand before item 11, and 12 (100) before 10 (50.0). *)
Lemma watchlist_on_examples :
  StronglySorted (watch_before full_7d pct_of_7d latest_7d)
    (V1.build_watchlist
       (V1.compute_7d_trends Read.float_of_str cutoff_7d log) 50 f25 false)
  /\ map V1.t_appid
       (V1.build_watchlist
          (V1.compute_7d_trends Read.float_of_str cutoff_7d log) 50 f25 false)
     = ["12"; "10"; "11"].
Proof.
  split; [|vm_compute; reflexivity].
  refine (proj1 (proj2 (proj1 watchlist_order
            (V1.compute_7d_trends Read.float_of_str cutoff_7d log)
            50 f25 false _))).
  apply List.Forall_forall. intros t Ht. vm_compute in Ht.
  repeat (destruct Ht as [<-|Ht]; [split; vm_compute; eauto|]).
  contradiction.
Defined.

(** The watchlist of v2.0 is not ordered by percentage: with the rows of
    items 13 (33.3 %) and 10 (50.0 %) in that order in [trend_rows], both
    with a full window and both selected, the watchlist has them in that
    order, the smaller percentage first. *)
Lemma v2_watchlist_unsorted :
  exists result,
    V2.compute_3d_trends_from_history Read.fromisoformat Read.float_of_str
      now (Some history_tab) [13; 10] = Ok result
    /\ V2.main_watch_rows 1 f25
         [V2.main_trend_row result 13 today_13;
          V2.main_trend_row result 10 today_10]
       = [V2.main_trend_row result 13 today_13;
          V2.main_trend_row result 10 today_10]
    /\ ~ StronglySorted (watch_before full_3d pct_of_3d latest_3d)
           [V2.main_trend_row result 13 today_13;
            V2.main_trend_row result 10 today_10].
Proof.
  eexists. split; [vm_compute; reflexivity|].
  split; [vm_compute; reflexivity|].
  intros H. inversion H as [|? ? _ Hf]; subst.
  inversion Hf as [|? ? Hb _]; subst.
  unfold watch_before in Hb. vm_compute in Hb.
  intuition discriminate.
Qed.

(** C9 (amended).  v1.8.3 rounds: the percentage of a dict of
    [compute_7d_trends] is [round(pct, 2)] of the percentage computed
    from the first and the last row of its window, and its latest value
    is rounded likewise.  v2.0 does not round: for a window with an
    oldest value [oldest > 0] the percentage of the trend is the product
    [(latest - oldest) / oldest * 100.0] itself. *)
Theorem pct_rounding :
  (forall float_of_str cutoff log t,
     In t (V1.compute_7d_trends float_of_str cutoff log) ->
     exists window earliest latest,
       head window = Some earliest /\ last window = Some latest
       /\ (forall r, In r window ->
             In r log /\ V1.appid r = V1.t_appid t
             /\ String.leb cutoff (V1.date r) = true)
       /\ V1.ccu_pct_change_7d t
          = py_round2_num (V1.pct_7d (V1.fnum float_of_str latest)
                                     (V1.fnum float_of_str earliest))
       /\ V1.ccu_latest t = py_round2 (V1.fnum float_of_str latest))
  /\ (forall h t0 oldest t1 latest q,
        (2 <= length h)%nat ->
        is_oldest h (t0, oldest) -> is_latest h (t1, latest) ->
        0 < oldest ->
        py_truediv (latest - oldest) oldest = Ok q ->
        V2.trend_of_hist (Some h)
        = Ok {| V2.ccu_3d_ago := Some oldest;
                V2.pct_change_3d := fmul q f100 |}).
Proof.
  split.
  - intros fos cutoff log t Hin.
    destruct (V1Facts.compute_7d_row fos cutoff log t Hin)
      as (window & earliest & latest & Hh & Hl & Hrows & _ & Hccu & Hpct).
    exists window, earliest, latest. auto.
  - intros h t0 oldest t1 latest q Hlen Ho Hl Hpos Hq.
    rewrite (V2Facts.trend_of_hist_full _ _ _ _ _ Hlen Ho Hl).
    unfold V2.pct_change. apply Z.leb_gt in Hpos. now rewrite Hpos, Hq.
Qed.

(** Item 13 goes from 3 to 4: v1.8.3 reports 33.33, v2.0 the unrounded
    product. *)
Lemma rounding_on_examples :
  (exists t,
     In t (V1.compute_7d_trends Read.float_of_str cutoff_7d log)
     /\ V1.t_appid t = "13"
     /\ V1.ccu_pct_change_7d t = PyFloat (py_round2 (V2.pct_change_3d
           {| V2.ccu_3d_ago := Some 3;
              V2.pct_change_3d :=
                fmul (S754_finite false 6004799503160661 (-54)) f100 |})))
  /\ V2.trend_of_hist
       (Some [(Read.wall_us 2024 3 10 12 0 0, 3);
              (Read.wall_us 2024 3 11 12 0 0, 4)])
     = Ok {| V2.ccu_3d_ago := Some 3;
             V2.pct_change_3d :=
               fmul (S754_finite false 6004799503160661 (-54)) f100 |}.
Proof.
  split.
  - assert (H : In trend_13
                  (V1.compute_7d_trends Read.float_of_str cutoff_7d log)).
    { vm_compute. tauto. }
    destruct (proj1 pct_rounding Read.float_of_str cutoff_7d log trend_13 H)
      as (window & earliest & latest & _).
    exists trend_13. split; [exact H|]. split; vm_compute; reflexivity.
  - apply (proj2 pct_rounding _ (Read.wall_us 2024 3 10 12 0 0) 3
             (Read.wall_us 2024 3 11 12 0 0) 4).
    + cbn. lia.
    + V2Facts.split_window
        ([] : list V2.sample)
        ([(Read.wall_us 2024 3 11 12 0 0, 4)] : list V2.sample).
    + V2Facts.split_window
        ([(Read.wall_us 2024 3 10 12 0 0, 3)] : list V2.sample)
        ([] : list V2.sample).
    + lia.
    + vm_compute. reflexivity.
Defined.

(** The percentage of v2.0 is not rounded: that of item 13 in the result
    is not what [round(pct, 2)] makes of it. *)
Lemma v2_pct_not_rounded :
  exists result t,
    V2.compute_3d_trends_from_history Read.fromisoformat Read.float_of_str
      now (Some history_tab) [13] = Ok result
    /\ result !! 13 = Some t
    /\ V2.pct_change_3d t <> py_round2 (V2.pct_change_3d t).
Proof.
  do 2 eexists. split; [vm_compute; reflexivity|].
  split; [vm_compute; reflexivity|].
  vm_compute. discriminate.
Qed.

End Variants.
